(** * Fee market keeper: base fee (EIP-1559) and block gas wanted

    A shallow embedding of [x/feemarket/keeper/eip1559.go]:
    [CalculateBlockGasWanted] and [CalculateBaseFee], over a model of the
    [cosmossdk.io/math] integer and decimal types they compute with, and of
    their caller [EndBlock].

    Go values are embedded as follows.
    - [uint64], [int64], [uint32] and [sdkmath.Int]: [Z]; conversions that
      abort in Go ([Int64()], [Uint64()], a zero divisor) return [Panic].
    - [sdkmath.LegacyDec]: the underlying integer, the value scaled by
      [10^18]; the nil decimal [LegacyDec{}] is [None] of [option LegacyDec].
      The arithmetic of the type aborts when the magnitude of a result
      reaches [2^256 * 10^18] raw units, which is [Panic] here.
    - [(uint64, error)]: a pair with an [option error].
    - the keeper's stores, the event manager and the logger: fields of
      [Context], threaded through a state monad.
    The deferred telemetry gauge of [CalculateBlockGasWanted] (a [float32])
    is not part of the embedding. *)

From Stdlib Require Import ZArith Lia List String Bool.
Import ListNotations.
Local Open Scope Z_scope.

(** ** Outcomes of Go computations *)

Inductive panic : Type :=
| DivisionByZero
| IntOverflow
| OutOfBounds.

Inductive outcome (A : Type) : Type :=
| Ret (a : A)
| Panic (p : panic).
Arguments Ret {A} a.
Arguments Panic {A} p.

Definition obind {A B : Type} (o : outcome A) (k : A -> outcome B) : outcome B :=
  match o with
  | Ret a => k a
  | Panic p => Panic p
  end.

(** ** The [cosmossdk.io/math] types *)

Module sdkmath.

Definition Int : Type := Z.
Definition LegacyDec : Type := Z.

Definition MaxUint64 : Z := 2 ^ 64 - 1.
Definition MaxInt64 : Z := 2 ^ 63 - 1.
Definition MinInt64 : Z := - 2 ^ 63.

Definition LegacyPrecision : Z := 18.
Definition precisionReuse : Z := 10 ^ LegacyPrecision.
Definition fivePrecision : Z := Z.quot precisionReuse 2.
Definition MaxBitLen : Z := 256.

(** The valid range of a decimal: a magnitude of at most
    [2^256 * 10^18 - 1] raw units, that is below [2^256] whole units. *)
Definition decimalLimit : Z := 2 ^ MaxBitLen * precisionReuse.

Definition IsInValidRange (d : LegacyDec) : bool :=
  Z.abs d <? decimalLimit.

(** *** [sdkmath.Int] *)

Definition NewIntFromUint64 (n : Z) : Int := n.
Definition NewInt (n : Z) : Int := n.

Definition Int_IsInt64 (i : Int) : bool := (MinInt64 <=? i) && (i <=? MaxInt64).
Definition Int_IsUint64 (i : Int) : bool := (0 <=? i) && (i <=? MaxUint64).
Definition Int_IsZero (i : Int) : bool := i =? 0.

Definition Int_Int64 (i : Int) : outcome Z :=
  if Int_IsInt64 i then Ret i else Panic OutOfBounds.

Definition Int_Uint64 (i : Int) : outcome Z :=
  if Int_IsUint64 i then Ret i else Panic OutOfBounds.

(** [Int.Quo]: truncated division, aborting on a zero divisor. *)
Definition Int_Quo (i i2 : Int) : outcome Int :=
  if i2 =? 0 then Panic DivisionByZero else Ret (Z.quot i i2).

(** *** [sdkmath.LegacyDec] *)

Definition LegacyZeroDec : LegacyDec := 0.
Definition LegacyOneDec : LegacyDec := precisionReuse.
Definition LegacyNewDec (i : Z) : LegacyDec := i * precisionReuse.

Definition checked (d : LegacyDec) : outcome LegacyDec :=
  if IsInValidRange d then Ret d else Panic IntOverflow.

(** [chopPrecisionAndRound]: drop 18 digits, rounding half to even; a
    negative argument is negated, chopped and negated back. *)
Definition chopPrecisionAndRoundAbs (d : Z) : Z :=
  let quo := Z.quot d precisionReuse in
  let rem := Z.rem d precisionReuse in
  if rem =? 0 then quo
  else match rem ?= fivePrecision with
       | Lt => quo
       | Gt => quo + 1
       | Eq => if Z.testbit quo 0 then quo + 1 else quo
       end.

Definition chopPrecisionAndRound (d : Z) : Z :=
  if d <? 0 then - chopPrecisionAndRoundAbs (- d)
  else chopPrecisionAndRoundAbs d.

Definition Mul (d d2 : LegacyDec) : outcome LegacyDec :=
  checked (chopPrecisionAndRound (d * d2)).

Definition MulInt (d : LegacyDec) (i : Int) : outcome LegacyDec :=
  checked (d * i).

Definition QuoInt (d : LegacyDec) (i : Int) : outcome LegacyDec :=
  if i =? 0 then Panic DivisionByZero else Ret (Z.quot d i).

Definition Add (d d2 : LegacyDec) : outcome LegacyDec := checked (d + d2).
Definition Sub (d d2 : LegacyDec) : outcome LegacyDec := checked (d - d2).

Definition LT (d d2 : LegacyDec) : bool := d <? d2.

Definition LegacyMaxDec (d1 d2 : LegacyDec) : LegacyDec :=
  if LT d1 d2 then d2 else d1.

Definition TruncateInt (d : LegacyDec) : Int := Z.quot d precisionReuse.

End sdkmath.

(** ** Parameters, block context and keeper state *)

Definition uint64 : Type := Z.

(** The fee market parameters ([types.Params]). [BaseFee] is [None] when the
    stored decimal is nil. *)
Record Params : Type := mkParams {
  NoBaseFee : bool;
  BaseFeeChangeDenominator : Z;
  ElasticityMultiplier : Z;
  EnableHeight : Z;
  BaseFee : option sdkmath.LegacyDec;
  MinGasPrice : sdkmath.LegacyDec;
  MinGasMultiplier : sdkmath.LegacyDec
}.

(** Modelled from the spec: [Params.IsBaseFeeEnabled] lives in the
    [types] package; the fee market is disabled when [noBaseFee] is set
    or the block height is below [enableHeight]. *)
Definition IsBaseFeeEnabled (p : Params) (height : Z) : bool :=
  negb (NoBaseFee p) && (EnableHeight p <=? height).

(** A block gas meter with a limit; [GasConsumedToLimit] is the consumed
    gas capped at the limit. *)
Record GasMeter : Type := mkGasMeter {
  limit : uint64;
  consumed : uint64
}.

Definition IsPastLimit (g : GasMeter) : bool := consumed g >? limit g.

Definition GasConsumedToLimit (g : GasMeter) : uint64 :=
  if IsPastLimit g then limit g else consumed g.

Record BlockParams : Type := mkBlockParams {
  MaxBytes : Z;
  MaxGas : Z
}.

Record ConsensusParamsT : Type := mkConsensusParams {
  Block : option BlockParams
}.

(** The errors [CalculateBlockGasWanted] builds, one per message. *)
Inductive error : Type :=
| ErrBlockGasMeterNil
| ErrGasWantedOverflow (gasWanted : sdkmath.Int)
| ErrGasUsedOverflow (gasUsed : sdkmath.Int).

(** The two error classes of the specification. *)
Definition GasMeterMissing (e : error) : bool :=
  match e with ErrBlockGasMeterNil => true | _ => false end.

Definition ArithmeticOverflow (e : error) : bool :=
  match e with
  | ErrGasWantedOverflow _ | ErrGasUsedOverflow _ => true
  | ErrBlockGasMeterNil => false
  end.

Record Event : Type := mkEvent {
  eventType : string;
  eventAttributes : list (string * Z)
}.

(** What a call can read and write: the block context, the keeper's stores
    (parameters, transient gas wanted, block gas wanted), the emitted
    events and the logged errors. *)
Record Context : Type := mkContext {
  blockHeight : Z;
  blockGasMeter : option GasMeter;
  consensusParams : ConsensusParamsT;
  paramsStore : Params;
  transientGasWanted : uint64;
  blockGasWanted : uint64;
  events : list Event;
  errorLog : list error
}.

Definition BlockHeight (ctx : Context) : Z := blockHeight ctx.
Definition BlockGasMeter (ctx : Context) : option GasMeter := blockGasMeter ctx.
Definition ConsensusParams (ctx : Context) : ConsensusParamsT := consensusParams ctx.

(** Modelled from the spec: [Keeper.GetParams] is defined in another file of
    the keeper; it returns the parameter snapshot of the block. *)
Definition GetParams (ctx : Context) : Params := paramsStore ctx.

(** Modelled from the spec: [Keeper.GetTransientGasWanted] is defined in
    another file of the keeper; it reads the per-block accumulator of
    declared gas. *)
Definition GetTransientGasWanted (ctx : Context) : uint64 := transientGasWanted ctx.

Definition withBlockGasWanted (v : uint64) (ctx : Context) : Context :=
  mkContext (blockHeight ctx) (blockGasMeter ctx) (consensusParams ctx)
            (paramsStore ctx) (transientGasWanted ctx) v
            (events ctx) (errorLog ctx).

Definition withEvent (e : Event) (ctx : Context) : Context :=
  mkContext (blockHeight ctx) (blockGasMeter ctx) (consensusParams ctx)
            (paramsStore ctx) (transientGasWanted ctx) (blockGasWanted ctx)
            (events ctx ++ [e]) (errorLog ctx).

Definition withLoggedError (e : error) (ctx : Context) : Context :=
  mkContext (blockHeight ctx) (blockGasMeter ctx) (consensusParams ctx)
            (paramsStore ctx) (transientGasWanted ctx) (blockGasWanted ctx)
            (events ctx) (errorLog ctx ++ [e]).

(** ** The keeper monad: state passing over [Context], with panics *)

Definition M (A : Type) : Type := Context -> outcome (A * Context).

Definition ret {A : Type} (a : A) : M A := fun ctx => Ret (a, ctx).

Definition bind {A B : Type} (m : M A) (k : A -> M B) : M B :=
  fun ctx =>
    match m ctx with
    | Ret (a, ctx') => k a ctx'
    | Panic p => Panic p
    end.

Definition lift {A : Type} (o : outcome A) : M A :=
  fun ctx =>
    match o with
    | Ret a => Ret (a, ctx)
    | Panic p => Panic p
    end.

Definition get : M Context := fun ctx => Ret (ctx, ctx).

Definition modify (f : Context -> Context) : M unit :=
  fun ctx => Ret (tt, f ctx).

Declare Scope keeper_scope.
Delimit Scope keeper_scope with keeper.
Notation "x <- m ;; k" := (bind m (fun x => k))
  (at level 61, m at next level, right associativity) : keeper_scope.
Notation "m ;; k" := (bind m (fun _ => k))
  (at level 61, right associativity) : keeper_scope.
Notation "x <-- o ;; k" := (obind o (fun x => k))
  (at level 61, o at next level, right associativity) : keeper_scope.
Local Open Scope keeper_scope.

Definition LoggerError (e : error) : M unit := modify (withLoggedError e).

(** Modelled from the spec: [Keeper.SetBlockGasWanted] is defined in another
    file of the keeper; it records the block's gas wanted figure. *)
Definition SetBlockGasWanted (v : uint64) : M unit := modify (withBlockGasWanted v).

Definition EmitEvent (e : Event) : M unit := modify (withEvent e).

(** ** [CalculateBlockGasWanted] *)

Definition CalculateBlockGasWanted : M (uint64 * option error) :=
  ctx <- get ;;
  match BlockGasMeter ctx with
  | None =>
      let err := ErrBlockGasMeterNil in
      LoggerError err ;;
      ret (0, Some err)
  | Some meter =>
      let gasWanted := sdkmath.NewIntFromUint64 (GetTransientGasWanted ctx) in
      let gasUsed := sdkmath.NewIntFromUint64 (GasConsumedToLimit meter) in
      if negb (sdkmath.Int_IsInt64 gasWanted) then
        let err := ErrGasWantedOverflow gasWanted in
        LoggerError err ;;
        ret (0, Some err)
      else if negb (sdkmath.Int_IsInt64 gasUsed) then
        let err := ErrGasUsedOverflow gasUsed in
        LoggerError err ;;
        ret (0, Some err)
      else
        let minGasMultiplier := MinGasMultiplier (GetParams ctx) in
        gasWanted64 <- lift (sdkmath.Int_Int64 gasWanted) ;;
        limitedGasWanted <-
          lift (sdkmath.Mul (sdkmath.LegacyNewDec gasWanted64) minGasMultiplier) ;;
        gasUsed64 <- lift (sdkmath.Int_Int64 gasUsed) ;;
        updatedGasWanted <-
          lift (sdkmath.Int_Uint64
                  (sdkmath.TruncateInt
                     (sdkmath.LegacyMaxDec limitedGasWanted
                                           (sdkmath.LegacyNewDec gasUsed64)))) ;;
        SetBlockGasWanted updatedGasWanted ;;
        EmitEvent (mkEvent "block_gas"
                           [("height"%string, BlockHeight ctx);
                            ("amount"%string, updatedGasWanted)]) ;;
        ret (updatedGasWanted, None)
  end.

(** ** [CalculateBaseFee] *)

(** Subtraction of [uint64] values wraps around. *)
Definition sub64 (a b : uint64) : uint64 := (a - b) mod 2 ^ 64.

Definition CalculateBaseFee : M (option sdkmath.LegacyDec) :=
  ctx <- get ;;
  let params := GetParams ctx in
  if negb (IsBaseFeeEnabled params (BlockHeight ctx)) then ret None
  else
    let consParams := ConsensusParams ctx in
    if BlockHeight ctx =? EnableHeight params then ret (BaseFee params)
    else
      match BaseFee params with
      | None => ret None
      | Some parentBaseFee =>
          r <- CalculateBlockGasWanted ;;
          let '(parentGasUsed, err) := r in
          match err with
          | Some _ => ret None
          | None =>
              let gasLimit :=
                match Block consParams with
                | Some block =>
                    if MaxGas block >? -1 then sdkmath.NewInt (MaxGas block)
                    else sdkmath.NewIntFromUint64 sdkmath.MaxUint64
                | None => sdkmath.NewIntFromUint64 sdkmath.MaxUint64
                end in
              parentGasTargetInt <-
                lift (sdkmath.Int_Quo gasLimit
                        (sdkmath.NewIntFromUint64 (ElasticityMultiplier params))) ;;
              if negb (sdkmath.Int_IsUint64 parentGasTargetInt) then ret None
              else
                parentGasTarget <- lift (sdkmath.Int_Uint64 parentGasTargetInt) ;;
                let baseFeeChangeDenominator :=
                  sdkmath.NewIntFromUint64 (BaseFeeChangeDenominator params) in
                if parentGasUsed =? parentGasTarget then ret (Some parentBaseFee)
                else if sdkmath.Int_IsZero parentGasTargetInt then
                  ret (Some sdkmath.LegacyZeroDec)
                else if parentGasUsed >? parentGasTarget then
                  let gasUsedDelta :=
                    sdkmath.NewIntFromUint64 (sub64 parentGasUsed parentGasTarget) in
                  x <- lift (sdkmath.MulInt parentBaseFee gasUsedDelta) ;;
                  y <- lift (sdkmath.QuoInt x parentGasTargetInt) ;;
                  q <- lift (sdkmath.QuoInt y baseFeeChangeDenominator) ;;
                  let baseFeeDelta := sdkmath.LegacyMaxDec q sdkmath.LegacyOneDec in
                  fee <- lift (sdkmath.Add parentBaseFee baseFeeDelta) ;;
                  ret (Some fee)
                else
                  let gasUsedDelta :=
                    sdkmath.NewIntFromUint64 (sub64 parentGasTarget parentGasUsed) in
                  x <- lift (sdkmath.MulInt parentBaseFee gasUsedDelta) ;;
                  y <- lift (sdkmath.QuoInt x parentGasTargetInt) ;;
                  baseFeeDelta <- lift (sdkmath.QuoInt y baseFeeChangeDenominator) ;;
                  fee <- lift (sdkmath.Sub parentBaseFee baseFeeDelta) ;;
                  ret (Some (sdkmath.LegacyMaxDec fee (MinGasPrice params)))
          end
      end.

(** ** [EndBlock] *)

Definition withParams (p : Params) (ctx : Context) : Context :=
  mkContext (blockHeight ctx) (blockGasMeter ctx) (consensusParams ctx)
            p (transientGasWanted ctx) (blockGasWanted ctx)
            (events ctx) (errorLog ctx).

Definition withBaseFee (baseFee : option sdkmath.LegacyDec) (p : Params) : Params :=
  mkParams (NoBaseFee p) (BaseFeeChangeDenominator p) (ElasticityMultiplier p)
           (EnableHeight p) baseFee (MinGasPrice p) (MinGasMultiplier p).

(** Modelled from the spec: [Keeper.SetBaseFee] is defined in another file
    of the keeper; it persists the fee as the stored base fee, the parent
    base fee of the following block. *)
Definition SetBaseFee (baseFee : sdkmath.LegacyDec) : M unit :=
  ctx <- get ;;
  modify (withParams (withBaseFee (Some baseFee) (GetParams ctx))).

(** Modelled from the spec: the event type and attribute key of the base
    fee event are constants of the [types] package; the names stand for
    their values. *)
Definition EventTypeFeeMarket : string := "EventTypeFeeMarket".
Definition AttributeKeyBaseFee : string := "AttributeKeyBaseFee".

(** [EndBlock] (abci.go): the fee of [CalculateBaseFee] is stored and
    announced unless it is nil. The deferred function (the conversion of
    the fee to a float, its telemetry gauge, and the log entry of a failed
    conversion) is not part of the embedding. *)
Definition EndBlock : M (option error) :=
  baseFee <- CalculateBaseFee ;;
  match baseFee with
  | None => ret None
  | Some fee =>
      SetBaseFee fee ;;
      EmitEvent (mkEvent EventTypeFeeMarket [(AttributeKeyBaseFee, fee)]) ;;
      ret None
  end.

(** ** Vocabulary of the specification *)

(** Steady state: the fee market is enabled and the block is past the
    activation block. *)
Definition SteadyState (ctx : Context) : Prop :=
  NoBaseFee (GetParams ctx) = false /\
  EnableHeight (GetParams ctx) < BlockHeight ctx.

(** The gas limit [CalculateBaseFee] derives from the consensus parameters. *)
Definition gasLimit (ctx : Context) : sdkmath.Int :=
  match Block (ConsensusParams ctx) with
  | Some block =>
      if MaxGas block >? -1 then sdkmath.NewInt (MaxGas block)
      else sdkmath.NewIntFromUint64 sdkmath.MaxUint64
  | None => sdkmath.NewIntFromUint64 sdkmath.MaxUint64
  end.

Definition parentGasTarget (ctx : Context) : sdkmath.Int :=
  Z.quot (gasLimit ctx) (ElasticityMultiplier (GetParams ctx)).

(** A base fee that can be multiplied by any [uint64] gas difference within
    the valid range of a decimal: [2^251 * 2^64] is below
    [sdkmath.decimalLimit]. *)
Definition FeeInRange (fee : sdkmath.LegacyDec) : Prop :=
  Z.abs fee < 2 ^ 251.

(** The context after a successful [CalculateBlockGasWanted]: the block gas
    wanted is stored and the [block_gas] event emitted. *)
Definition blockGasRecorded (gasWanted : uint64) (ctx : Context) : Context :=
  withEvent (mkEvent "block_gas"
                     [("height"%string, BlockHeight ctx);
                      ("amount"%string, gasWanted)])
            (withBlockGasWanted gasWanted ctx).

(** The gas wanted in the words of the specification: the exact decimal
    product of the accumulator and the multiplier, the larger of it and
    the consumed gas, truncated to a whole number. *)
Definition spec_limitedWanted (wantedGasAccumulator : Z)
           (minGasMultiplier : sdkmath.LegacyDec) : sdkmath.LegacyDec :=
  wantedGasAccumulator * minGasMultiplier.

Definition spec_gasWanted (wantedGasAccumulator : Z)
           (minGasMultiplier : sdkmath.LegacyDec) (consumedGas : Z) : Z :=
  Z.quot (Z.max (spec_limitedWanted wantedGasAccumulator minGasMultiplier)
                (consumedGas * 10 ^ 18))
         (10 ^ 18).

(** The inputs the calculators are specified for: positive divisors, a
    multiplier in [0,1], unsigned gas counters, and a base fee in range. *)
Definition ValidInput (ctx : Context) : Prop :=
  0 < ElasticityMultiplier (GetParams ctx) /\
  0 < BaseFeeChangeDenominator (GetParams ctx) /\
  0 <= MinGasMultiplier (GetParams ctx) <= sdkmath.LegacyOneDec /\
  0 <= GetTransientGasWanted ctx /\
  (forall meter, BlockGasMeter ctx = Some meter ->
                 0 <= GasConsumedToLimit meter) /\
  (forall fee, BaseFee (GetParams ctx) = Some fee -> FeeInRange fee).


(** The fee of the steady state for a reconciled gas wanted, as the
    branches of [CalculateBaseFee] compute it when no range guard fires. *)
Definition steadyBaseFee (ctx : Context) (parentBaseFee : sdkmath.LegacyDec)
           (parentGasUsed : uint64) : option sdkmath.LegacyDec :=
  let target := parentGasTarget ctx in
  let denominator := BaseFeeChangeDenominator (GetParams ctx) in
  if negb (sdkmath.Int_IsUint64 target) then None
  else if parentGasUsed =? target then Some parentBaseFee
  else if target =? 0 then Some sdkmath.LegacyZeroDec
  else if parentGasUsed >? target then
    Some (parentBaseFee
          + Z.max (Z.quot (Z.quot (parentBaseFee * (parentGasUsed - target))
                                  target) denominator)
                  sdkmath.LegacyOneDec)
  else
    Some (Z.max (parentBaseFee
                 - Z.quot (Z.quot (parentBaseFee * (target - parentGasUsed))
                                  target) denominator)
                (MinGasPrice (GetParams ctx))).

(** The context with another minimum gas price. *)
Definition withMinGasPrice (price : sdkmath.LegacyDec) (ctx : Context) : Context :=
  withParams (mkParams (NoBaseFee (GetParams ctx))
                       (BaseFeeChangeDenominator (GetParams ctx))
                       (ElasticityMultiplier (GetParams ctx))
                       (EnableHeight (GetParams ctx))
                       (BaseFee (GetParams ctx))
                       price
                       (MinGasMultiplier (GetParams ctx)))
             ctx.

(** The context [EndBlock] leaves when it stores a fee. *)
Definition baseFeeStored (fee : sdkmath.LegacyDec) (ctx : Context) : Context :=
  withEvent (mkEvent EventTypeFeeMarket [(AttributeKeyBaseFee, fee)])
            (withParams (withBaseFee (Some fee) (GetParams ctx)) ctx).

(** ** The scenarios of [eip1559_test.go] *)

Definition DefaultBaseFee : sdkmath.LegacyDec := sdkmath.LegacyNewDec 875000000.

(** The default parameters of the test network: denominator 8, elasticity
    2, activation at height 0, minimum gas multiplier 0.5. *)
Definition testParams (noBaseFee : bool) (baseFee : option sdkmath.LegacyDec)
           (minGasPrice : sdkmath.LegacyDec) : Params :=
  mkParams noBaseFee 8 2 0 baseFee minGasPrice (5 * 10 ^ 17).

Definition DefaultParams : Params := testParams false (Some DefaultBaseFee) 0.

Definition testContext (height : Z) (meter : option GasMeter) (maxGas : Z)
           (p : Params) (wanted : uint64) : Context :=
  mkContext height meter (mkConsensusParams (Some (mkBlockParams 10 maxGas)))
            p wanted 0 [] [].

(** A meter created with limit [meterLimit] that has consumed
    [consumedGas]. *)
Definition gasMeterAt (meterLimit consumedGas : uint64) : option GasMeter :=
  Some (mkGasMeter meterLimit consumedGas).

(** The value a call returns, without the final context. *)
Definition result {A : Type} (o : outcome (A * Context)) : outcome A :=
  match o with
  | Ret (a, _) => Ret a
  | Panic p => Panic p
  end.

(** [TestCalculateBaseFee]: gas limit 100, hence target 50. *)
Definition baseFeeCase (noBaseFee : bool) (height : Z) (gasUsed : uint64)
           (minGasPrice : sdkmath.LegacyDec) : Context :=
  testContext height (gasMeterAt 1000000000 gasUsed) 100
              (testParams noBaseFee (Some DefaultBaseFee) minGasPrice) gasUsed.

Definition highMinGasPrice : sdkmath.LegacyDec := sdkmath.LegacyNewDec 1500000000.

(** [TestCalculateBlockGasWanted]. *)
Definition gasWantedCase (meter : option GasMeter) (wanted : uint64) : Context :=
  testContext 1 meter 100 DefaultParams wanted.

(** A gas limit of 0, hence a target of 0, with no gas and with some gas. *)
Definition zeroTargetIdle : Context :=
  testContext 1 (gasMeterAt 1000000000 0) 0 DefaultParams 0.

Definition zeroTargetBusy : Context :=
  testContext 1 (gasMeterAt 1000000000 10) 0 DefaultParams 10.

(** A base fee of one unit, one gas above the target. *)
Definition smallFeeCongested : Context :=
  testContext 1 (gasMeterAt 1000000000 51) 100
              (testParams false (Some sdkmath.LegacyOneDec) 0) 51.


(** The same fee under congestion: a minimum gas multiplier of 2, a gas
    target of 1 and an accumulator of [2^63 - 1]. *)
Definition hugeFeeCongested : Context :=
  mkContext 1 (gasMeterAt 1000000000 0)
            (mkConsensusParams (Some (mkBlockParams 10 1)))
            (mkParams false 8 1 0 (Some (2 ^ 252 - 1)) 0 (2 * 10 ^ 18))
            (2 ^ 63 - 1) 0 [] [].

(** A context with a minimum gas multiplier of one. *)
Definition fullMultiplierCase (meter : option GasMeter) (wanted : uint64) : Context :=
  testContext 1 meter 100
              (mkParams false 8 2 0 (Some DefaultBaseFee) 0 sdkmath.LegacyOneDec)
              wanted.

(** * Facts about the arithmetic *)

Module sdkmath_facts.
Import sdkmath.

Lemma precisionReuse_pos : 0 < precisionReuse.
Proof. reflexivity. Qed.

Lemma IsInValidRange_iff d :
  IsInValidRange d = true <-> Z.abs d < decimalLimit.
Proof. unfold IsInValidRange. apply Z.ltb_lt. Qed.

Lemma checked_in_range d :
  Z.abs d < decimalLimit -> checked d = Ret d.
Proof.
  intros H. unfold checked.
  apply IsInValidRange_iff in H. rewrite H. reflexivity.
Qed.

Lemma checked_out_of_range d :
  decimalLimit <= Z.abs d -> checked d = Panic IntOverflow.
Proof.
  intros H. unfold checked.
  destruct (IsInValidRange d) eqn:E; [| reflexivity].
  apply IsInValidRange_iff in E. lia.
Qed.

Lemma LegacyMaxDec_max d1 d2 : LegacyMaxDec d1 d2 = Z.max d1 d2.
Proof.
  unfold LegacyMaxDec, LT. destruct (Z.ltb_spec d1 d2); lia.
Qed.

(** A whole number of units is chopped without rounding. *)
Lemma chopPrecisionAndRoundAbs_units a :
  chopPrecisionAndRoundAbs (a * precisionReuse) = a.
Proof.
  unfold chopPrecisionAndRoundAbs.
  rewrite Z.rem_mul, Z.quot_mul by (unfold precisionReuse; discriminate).
  reflexivity.
Qed.

Lemma chopPrecisionAndRound_units a :
  chopPrecisionAndRound (a * precisionReuse) = a.
Proof.
  unfold chopPrecisionAndRound.
  destruct (Z.ltb_spec (a * precisionReuse) 0).
  - rewrite <- Z.mul_opp_l, chopPrecisionAndRoundAbs_units. lia.
  - apply chopPrecisionAndRoundAbs_units.
Qed.

(** The product of a whole number and a decimal is exact. *)
Lemma Mul_LegacyNewDec w m :
  Mul (LegacyNewDec w) m = checked (w * m).
Proof.
  unfold Mul, LegacyNewDec.
  replace (w * precisionReuse * m) with (w * m * precisionReuse) by ring.
  rewrite chopPrecisionAndRound_units. reflexivity.
Qed.

Lemma TruncateInt_max_units a c :
  TruncateInt (Z.max a (LegacyNewDec c)) = Z.max (TruncateInt a) c.
Proof.
  unfold TruncateInt, LegacyNewDec.
  pose proof precisionReuse_pos as Hp.
  assert (Hc : Z.quot (c * precisionReuse) precisionReuse = c)
    by (apply Z.quot_mul; lia).
  destruct (Z.le_ge_cases a (c * precisionReuse)) as [Hle | Hge].
  - rewrite Z.max_r by exact Hle.
    pose proof (Z.quot_le_mono a (c * precisionReuse) precisionReuse Hp Hle).
    lia.
  - rewrite Z.max_l by lia.
    pose proof (Z.quot_le_mono (c * precisionReuse) a precisionReuse Hp Hge).
    lia.
Qed.

Lemma Int_IsInt64_iff i : Int_IsInt64 i = true <-> MinInt64 <= i <= MaxInt64.
Proof. unfold Int_IsInt64. rewrite andb_true_iff, !Z.leb_le. tauto. Qed.

Lemma Int_IsUint64_iff i : Int_IsUint64 i = true <-> 0 <= i <= MaxUint64.
Proof. unfold Int_IsUint64. rewrite andb_true_iff, !Z.leb_le. tauto. Qed.

Lemma Int_Uint64_in_range i :
  0 <= i <= MaxUint64 -> Int_Uint64 i = Ret i.
Proof.
  intros H. unfold Int_Uint64.
  apply Int_IsUint64_iff in H. rewrite H. reflexivity.
Qed.

Lemma Int_Uint64_ret i v :
  Int_Uint64 i = Ret v -> v = i /\ 0 <= v <= MaxUint64.
Proof.
  unfold Int_Uint64. destruct (Int_IsUint64 i) eqn:E; intros H; inversion H.
  subst. apply Int_IsUint64_iff in E. lia.
Qed.

Lemma Int_Int64_in_range i :
  MinInt64 <= i <= MaxInt64 -> Int_Int64 i = Ret i.
Proof.
  intros H. unfold Int_Int64.
  apply Int_IsInt64_iff in H. rewrite H. reflexivity.
Qed.

End sdkmath_facts.

(** * Ranges of the fee arithmetic *)

Section FeeRanges.
Import sdkmath sdkmath_facts.

Lemma quot_abs_le a b : b <> 0 -> Z.abs (Z.quot a b) <= Z.abs a.
Proof.
  intros Hb. rewrite <- Z.quot_abs by exact Hb.
  apply Z.quot_le_upper_bound; [lia |].
  assert (1 <= Z.abs b) by lia.
  assert (0 <= Z.abs a) by lia.
  nia.
Qed.



Lemma sub64_no_wrap a b : b <= a -> a <= MaxUint64 -> 0 <= b -> sub64 a b = a - b.
Proof.
  intros H1 H2 H3. unfold sub64. unfold MaxUint64 in H2.
  apply Z.mod_small. lia.
Qed.

(** A fee in range, times a gas difference, plus the fee, stays a valid
    decimal. *)
Lemma fee_times_gas_in_range fee delta :
  FeeInRange fee -> 0 <= delta <= MaxUint64 ->
  Z.abs (fee * delta) + Z.abs fee < decimalLimit /\
  Z.abs fee + LegacyOneDec < decimalLimit.
Proof.
  unfold FeeInRange, MaxUint64. intros Hfee Hdelta.
  assert (Hlimit : 2 ^ 251 * 2 ^ 64 < decimalLimit) by reflexivity.
  assert (Hone : 2 ^ 251 + LegacyOneDec < decimalLimit) by reflexivity.
  remember decimalLimit as top eqn:Ht. clear Ht.
  remember (2 ^ 251) as bound eqn:Hb.
  assert (Hpos : 0 < bound) by (subst bound; reflexivity).
  clear Hb.
  rewrite Z.abs_mul, (Z.abs_eq delta) by lia.
  assert (Z.abs fee * delta <= Z.abs fee * (2 ^ 64 - 1))
    by (apply Z.mul_le_mono_nonneg_l; lia).
  split; lia.
Qed.

(** The congested branch computes its formula without overflow. *)
Lemma increase_outcome fee used target denominator :
  FeeInRange fee ->
  0 < target -> target < used <= MaxUint64 -> denominator <> 0 ->
  (x <-- MulInt fee (sub64 used target) ;;
   y <-- QuoInt x target ;;
   q <-- QuoInt y denominator ;;
   Add fee (LegacyMaxDec q LegacyOneDec))
  = Ret (fee + Z.max (Z.quot (Z.quot (fee * (used - target)) target)
                             denominator)
                     LegacyOneDec).
Proof.
  intros Hfee Ht Hu Hd.
  rewrite sub64_no_wrap by lia.
  destruct (fee_times_gas_in_range fee (used - target) Hfee) as [H1 H2];
    [lia |].
  unfold MulInt. rewrite checked_in_range by lia. cbn [obind].
  unfold QuoInt.
  destruct (Z.eqb_spec target 0); [lia |]. cbn [obind].
  destruct (Z.eqb_spec denominator 0); [lia |]. cbn [obind].
  rewrite LegacyMaxDec_max. unfold Add.
  set (x := fee * (used - target)) in *.
  pose proof (quot_abs_le x target ltac:(lia)) as Hy.
  pose proof (quot_abs_le (Z.quot x target) denominator Hd) as Hq.
  rewrite checked_in_range; [reflexivity |].
  pose proof precisionReuse_pos. unfold LegacyOneDec in *. lia.
Qed.

(** The slack branch computes its formula without overflow. *)
Lemma decrease_outcome fee used target denominator :
  FeeInRange fee ->
  0 <= used -> used < target <= MaxUint64 -> denominator <> 0 ->
  (x <-- MulInt fee (sub64 target used) ;;
   y <-- QuoInt x target ;;
   baseFeeDelta <-- QuoInt y denominator ;;
   Sub fee baseFeeDelta)
  = Ret (fee - Z.quot (Z.quot (fee * (target - used)) target) denominator).
Proof.
  intros Hfee Hu Ht Hd.
  rewrite sub64_no_wrap by lia.
  destruct (fee_times_gas_in_range fee (target - used) Hfee) as [H1 H2];
    [lia |].
  unfold MulInt. rewrite checked_in_range by lia. cbn [obind].
  unfold QuoInt.
  destruct (Z.eqb_spec target 0); [lia |]. cbn [obind].
  destruct (Z.eqb_spec denominator 0); [lia |]. cbn [obind].
  unfold Sub.
  set (x := fee * (target - used)) in *.
  pose proof (quot_abs_le x target ltac:(lia)) as Hy.
  pose proof (quot_abs_le (Z.quot x target) denominator Hd) as Hq.
  rewrite checked_in_range; [reflexivity | lia].
Qed.


End FeeRanges.

(** * [CalculateBlockGasWanted] *)

Section GasWanted.
Import sdkmath sdkmath_facts.

(** The three error returns and the success return, case by case. *)
Lemma CalculateBlockGasWanted_cases ctx :
  CalculateBlockGasWanted ctx =
  match BlockGasMeter ctx with
  | None =>
      Ret ((0, Some ErrBlockGasMeterNil),
           withLoggedError ErrBlockGasMeterNil ctx)
  | Some meter =>
      let gasWanted := GetTransientGasWanted ctx in
      let gasUsed := GasConsumedToLimit meter in
      if negb (Int_IsInt64 gasWanted) then
        Ret ((0, Some (ErrGasWantedOverflow gasWanted)),
             withLoggedError (ErrGasWantedOverflow gasWanted) ctx)
      else if negb (Int_IsInt64 gasUsed) then
        Ret ((0, Some (ErrGasUsedOverflow gasUsed)),
             withLoggedError (ErrGasUsedOverflow gasUsed) ctx)
      else
        match checked (gasWanted * MinGasMultiplier (GetParams ctx)) with
        | Ret limited =>
            match Int_Uint64 (Z.max (TruncateInt limited) gasUsed) with
            | Ret updated => Ret ((updated, None), blockGasRecorded updated ctx)
            | Panic p => Panic p
            end
        | Panic p => Panic p
        end
  end.
Proof.
  unfold CalculateBlockGasWanted, bind, get.
  destruct (BlockGasMeter ctx) as [meter |]; [| reflexivity].
  unfold NewIntFromUint64.
  destruct (Int_IsInt64 (GetTransientGasWanted ctx)) eqn:Hw; [| reflexivity].
  destruct (Int_IsInt64 (GasConsumedToLimit meter)) eqn:Hu; [| reflexivity].
  cbn [negb].
  unfold Int_Int64. rewrite Hw, Hu. cbn [lift].
  rewrite Mul_LegacyNewDec.
  destruct (checked _) as [limited | p]; [| reflexivity].
  cbn [lift].
  rewrite LegacyMaxDec_max, TruncateInt_max_units.
  destruct (Int_Uint64 _) as [updated | p]; reflexivity.
Qed.

Lemma CalculateBlockGasWanted_success ctx gasWanted ctx' :
  CalculateBlockGasWanted ctx = Ret ((gasWanted, None), ctx') ->
  0 <= gasWanted <= MaxUint64 /\ ctx' = blockGasRecorded gasWanted ctx.
Proof.
  rewrite CalculateBlockGasWanted_cases.
  destruct (BlockGasMeter ctx) as [meter |]; [| discriminate].
  cbv zeta.
  destruct (negb (Int_IsInt64 (GetTransientGasWanted ctx))); [discriminate |].
  destruct (negb (Int_IsInt64 (GasConsumedToLimit meter))); [discriminate |].
  destruct (checked _) as [limited | p]; [| discriminate].
  destruct (Int_Uint64 _) as [updated | p] eqn:Hu; [| discriminate].
  intros H. inversion H; subst.
  apply Int_Uint64_ret in Hu. split; [lia | reflexivity].
Qed.

Lemma spec_gasWanted_max wanted multiplier used :
  spec_gasWanted wanted multiplier used
  = Z.max (TruncateInt (wanted * multiplier)) used.
Proof.
  unfold spec_gasWanted, spec_limitedWanted.
  exact (TruncateInt_max_units (wanted * multiplier) used).
Qed.

(** With a multiplier in [0,1] the smoothed figure lies between 0 and the
    accumulator. *)
Lemma limited_wanted_bounds wanted multiplier :
  0 <= wanted -> 0 <= multiplier <= LegacyOneDec ->
  0 <= wanted * multiplier <= wanted * precisionReuse /\
  0 <= TruncateInt (wanted * multiplier) <= wanted.
Proof.
  intros Hw Hm. unfold LegacyOneDec in Hm. unfold TruncateInt.
  pose proof precisionReuse_pos as Hp.
  assert (H1 : 0 <= wanted * multiplier) by (apply Z.mul_nonneg_nonneg; lia).
  assert (H2 : wanted * multiplier <= wanted * precisionReuse)
    by (apply Z.mul_le_mono_nonneg_l; lia).
  split; [lia |]. split.
  - apply Z.quot_pos; lia.
  - pose proof (Z.quot_le_mono _ _ precisionReuse Hp H2) as H3.
    rewrite Z.quot_mul in H3 by lia. exact H3.
Qed.

(** The success return, for values in range. *)
Lemma CalculateBlockGasWanted_in_range ctx meter :
  BlockGasMeter ctx = Some meter ->
  0 <= GetTransientGasWanted ctx <= MaxInt64 ->
  0 <= GasConsumedToLimit meter <= MaxInt64 ->
  0 <= MinGasMultiplier (GetParams ctx) <= LegacyOneDec ->
  let gasWanted :=
    Z.max (TruncateInt (GetTransientGasWanted ctx
                        * MinGasMultiplier (GetParams ctx)))
          (GasConsumedToLimit meter) in
  CalculateBlockGasWanted ctx
  = Ret ((gasWanted, None), blockGasRecorded gasWanted ctx) /\
  0 <= gasWanted <= MaxInt64.
Proof.
  intros Hmeter Hw Hu Hm gasWanted.
  destruct (limited_wanted_bounds _ _ (proj1 Hw) Hm) as [Hprod Htrunc].
  assert (Hrange : 0 <= gasWanted <= MaxInt64) by (subst gasWanted; lia).
  split; [| exact Hrange].
  rewrite CalculateBlockGasWanted_cases, Hmeter. cbv zeta.
  rewrite (proj2 (Int_IsInt64_iff (GetTransientGasWanted ctx)))
    by (unfold MinInt64; lia).
  rewrite (proj2 (Int_IsInt64_iff (GasConsumedToLimit meter)))
    by (unfold MinInt64; lia).
  cbn [negb].
  rewrite checked_in_range.
  - fold gasWanted. rewrite Int_Uint64_in_range; [reflexivity |].
    unfold MaxUint64. unfold MaxInt64 in Hrange. lia.
  - assert (Hbig : MaxInt64 * precisionReuse < decimalLimit)
      by reflexivity.
    assert (GetTransientGasWanted ctx * precisionReuse
            <= MaxInt64 * precisionReuse)
      by (apply Z.mul_le_mono_nonneg_r;
          [pose proof precisionReuse_pos; lia | lia]).
    rewrite Z.abs_eq by lia. lia.
Qed.

(** C2. With a block gas meter attached, an accumulator and a capped
    consumed gas that both fit a signed 64-bit integer, and a multiplier
    in [0,1], [CalculateBlockGasWanted] succeeds and returns the larger of
    the exact product accumulator * multiplier and the consumed gas,
    truncated to a whole number, which fits an unsigned 64-bit integer.
    In particular 5,000,000 at 0.5 against 1,000,000 consumed gives
    2,500,000; 3,000,000 consumed against a smoothed 1,000,000 gives
    3,000,000; accumulator and consumed both 2,000,000 give 2,000,000. *)
Theorem CalculateBlockGasWanted_smooths ctx meter :
  BlockGasMeter ctx = Some meter ->
  0 <= GetTransientGasWanted ctx <= MaxInt64 ->
  0 <= GasConsumedToLimit meter <= MaxInt64 ->
  0 <= MinGasMultiplier (GetParams ctx) <= LegacyOneDec ->
  let wanted := GetTransientGasWanted ctx in
  let multiplier := MinGasMultiplier (GetParams ctx) in
  let used := GasConsumedToLimit meter in
  exists gasWanted,
    CalculateBlockGasWanted ctx
    = Ret ((gasWanted, None), blockGasRecorded gasWanted ctx) /\
    gasWanted = spec_gasWanted wanted multiplier used /\
    0 <= gasWanted <= MaxUint64 /\
    (wanted = 5000000 -> multiplier = 5 * 10 ^ 17 -> used = 1000000 ->
     gasWanted = 2500000) /\
    (used = 3000000 ->
     spec_limitedWanted wanted multiplier = LegacyNewDec 1000000 ->
     gasWanted = 3000000) /\
    (wanted = 2000000 -> used = 2000000 -> gasWanted = 2000000).
Proof.
  intros Hmeter Hw Hu Hm wanted multiplier used.
  destruct (CalculateBlockGasWanted_in_range ctx meter Hmeter Hw Hu Hm)
    as [Hrun Hrange].
  destruct (limited_wanted_bounds wanted multiplier (proj1 Hw) Hm)
    as [_ Htrunc].
  exists (spec_gasWanted wanted multiplier used).
  rewrite spec_gasWanted_max.
  cbv zeta in Hrun, Hrange. fold wanted multiplier used in Hrun, Hrange.
  split; [exact Hrun | split; [reflexivity |]].
  split; [unfold MaxUint64; unfold MaxInt64 in Hrange; lia |].
  repeat split.
  - intros -> -> ->. reflexivity.
  - intros -> Hl. unfold spec_limitedWanted in Hl. rewrite Hl.
    reflexivity.
  - intros E1 E2. lia.
Qed.

(** C7. With a block gas meter attached, an accumulator or a capped
    consumed gas above the signed 64-bit range makes
    [CalculateBlockGasWanted] return the value 0 with an overflow error:
    no number computed from the out-of-range value is returned. *)
Theorem CalculateBlockGasWanted_overflow ctx meter :
  BlockGasMeter ctx = Some meter ->
  MaxInt64 < GetTransientGasWanted ctx \/
  MaxInt64 < GasConsumedToLimit meter ->
  exists e,
    CalculateBlockGasWanted ctx = Ret ((0, Some e), withLoggedError e ctx) /\
    ArithmeticOverflow e = true.
Proof.
  intros Hmeter Hover.
  rewrite CalculateBlockGasWanted_cases, Hmeter. cbv zeta.
  destruct (Int_IsInt64 (GetTransientGasWanted ctx)) eqn:Hw; cbn [negb].
  - destruct (Int_IsInt64 (GasConsumedToLimit meter)) eqn:Hu; cbn [negb].
    + apply Int_IsInt64_iff in Hw, Hu. lia.
    + eexists. split; reflexivity.
  - eexists. split; reflexivity.
Qed.

(** C10. Whenever [CalculateBlockGasWanted] returns an error, the value
    returned with it is 0, the error comes from the nil meter or from one
    of the two 64-bit checks, and the context is the initial one with the
    error logged: the stored block gas wanted is not written and no event
    is emitted. *)
Theorem CalculateBlockGasWanted_error_writes_nothing ctx gasWanted e ctx' :
  CalculateBlockGasWanted ctx = Ret ((gasWanted, Some e), ctx') ->
  gasWanted = 0 /\
  ctx' = withLoggedError e ctx /\
  blockGasWanted ctx' = blockGasWanted ctx /\
  events ctx' = events ctx /\
  (BlockGasMeter ctx = None \/
   exists meter,
     BlockGasMeter ctx = Some meter /\
     (Int_IsInt64 (GetTransientGasWanted ctx) = false \/
      Int_IsInt64 (GasConsumedToLimit meter) = false)).
Proof.
  rewrite CalculateBlockGasWanted_cases.
  destruct (BlockGasMeter ctx) as [meter |] eqn:Hmeter.
  - cbv zeta.
    destruct (Int_IsInt64 (GetTransientGasWanted ctx)) eqn:Hw; cbn [negb].
    + destruct (Int_IsInt64 (GasConsumedToLimit meter)) eqn:Hu; cbn [negb].
      * destruct (checked _) as [limited | p]; [| discriminate].
        destruct (Int_Uint64 _) as [updated | p]; discriminate.
      * intros H. inversion H; subst.
        repeat split; try reflexivity. right. exists meter. auto.
    + intros H. inversion H; subst.
      repeat split; try reflexivity. right. exists meter. auto.
  - intros H. inversion H; subst.
    repeat split; try reflexivity. left. reflexivity.
Qed.

(** The write happens on the success path, with the value returned. *)
Lemma CalculateBlockGasWanted_success_writes ctx gasWanted ctx' :
  CalculateBlockGasWanted ctx = Ret ((gasWanted, None), ctx') ->
  blockGasWanted ctx' = gasWanted /\ errorLog ctx' = errorLog ctx.
Proof.
  intros H. apply CalculateBlockGasWanted_success in H as [_ ->].
  split; reflexivity.
Qed.

End GasWanted.

(** * [CalculateBaseFee] *)

Section BaseFeeCalculation.
Import sdkmath sdkmath_facts.

Lemma IsBaseFeeEnabled_steady ctx :
  SteadyState ctx ->
  IsBaseFeeEnabled (GetParams ctx) (BlockHeight ctx) = true /\
  (BlockHeight ctx =? EnableHeight (GetParams ctx)) = false.
Proof.
  intros [Hno Hlt]. unfold IsBaseFeeEnabled. rewrite Hno. cbn [negb andb].
  split; [apply Z.leb_le | apply Z.eqb_neq]; lia.
Qed.


(** The steady state with a parent base fee, after the gas wanted has been
    reconciled: the four outcomes on the gas target. *)
Lemma CalculateBaseFee_steady ctx parentBaseFee parentGasUsed ctx1 :
  SteadyState ctx ->
  BaseFee (GetParams ctx) = Some parentBaseFee ->
  CalculateBlockGasWanted ctx = Ret ((parentGasUsed, None), ctx1) ->
  ElasticityMultiplier (GetParams ctx) <> 0 ->
  let target := parentGasTarget ctx in
  let denominator := BaseFeeChangeDenominator (GetParams ctx) in
  CalculateBaseFee ctx =
  if negb (Int_IsUint64 target) then Ret (None, ctx1)
  else if parentGasUsed =? target then Ret (Some parentBaseFee, ctx1)
  else if Int_IsZero target then Ret (Some LegacyZeroDec, ctx1)
  else if parentGasUsed >? target then
    match (x <-- MulInt parentBaseFee (sub64 parentGasUsed target) ;;
           y <-- QuoInt x target ;;
           q <-- QuoInt y denominator ;;
           Add parentBaseFee (LegacyMaxDec q LegacyOneDec)) with
    | Ret fee => Ret (Some fee, ctx1)
    | Panic p => Panic p
    end
  else
    match (x <-- MulInt parentBaseFee (sub64 target parentGasUsed) ;;
           y <-- QuoInt x target ;;
           baseFeeDelta <-- QuoInt y denominator ;;
           Sub parentBaseFee baseFeeDelta) with
    | Ret fee => Ret (Some (LegacyMaxDec fee (MinGasPrice (GetParams ctx))), ctx1)
    | Panic p => Panic p
    end.
Proof.
  intros Hsteady Hfee Hgas He target denominator.
  destruct (IsBaseFeeEnabled_steady ctx Hsteady) as [Hen Hact].
  unfold CalculateBaseFee, bind, get.
  rewrite Hen, Hact, Hfee. cbn [negb]. rewrite Hgas.
  subst target.
  unfold parentGasTarget, gasLimit, Int_Quo, NewIntFromUint64, NewInt.
  apply Z.eqb_neq in He. rewrite He. cbn [lift].
  set (target := Z.quot _ _).
  destruct (Int_IsUint64 target) eqn:Hu; cbn [negb]; [| reflexivity].
  unfold Int_Uint64. rewrite Hu. cbn [lift].
  destruct (parentGasUsed =? target); [reflexivity |].
  destruct (Int_IsZero target); [reflexivity |].
  fold denominator.
  destruct (parentGasUsed >? target).
  - destruct (MulInt _ _) as [x | p]; cbn [lift obind]; [| reflexivity].
    destruct (QuoInt x target) as [y | p]; cbn [lift obind]; [| reflexivity].
    destruct (QuoInt y denominator) as [q | p]; cbn [lift obind];
      [| reflexivity].
    destruct (Add _ _) as [fee | p]; reflexivity.
  - destruct (MulInt _ _) as [x | p]; cbn [lift obind]; [| reflexivity].
    destruct (QuoInt x target) as [y | p]; cbn [lift obind]; [| reflexivity].
    destruct (QuoInt y denominator) as [q | p]; cbn [lift obind];
      [| reflexivity].
    destruct (Sub _ _) as [fee | p]; reflexivity.
Qed.

Lemma CalculateBaseFee_gas_wanted_error ctx parentBaseFee gasWanted e ctx1 :
  SteadyState ctx ->
  BaseFee (GetParams ctx) = Some parentBaseFee ->
  CalculateBlockGasWanted ctx = Ret ((gasWanted, Some e), ctx1) ->
  CalculateBaseFee ctx = Ret (None, ctx1).
Proof.
  intros Hsteady Hfee Hgas.
  destruct (IsBaseFeeEnabled_steady ctx Hsteady) as [Hen Hact].
  unfold CalculateBaseFee, bind, get.
  rewrite Hen, Hact, Hfee. cbn [negb]. rewrite Hgas. reflexivity.
Qed.

Lemma CalculateBaseFee_fee_absent ctx :
  BaseFee (GetParams ctx) = None ->
  CalculateBaseFee ctx = Ret (None, ctx).
Proof.
  intros Hfee. unfold CalculateBaseFee, bind, get.
  destruct (IsBaseFeeEnabled _ _); cbn [negb]; [| reflexivity].
  destruct (BlockHeight ctx =? _); rewrite Hfee; reflexivity.
Qed.

(** C8. With [noBaseFee] set, or below the activation height, the result
    is the absent fee whatever the other inputs are; nothing is written. *)
Theorem CalculateBaseFee_disabled ctx :
  NoBaseFee (GetParams ctx) = true \/
  BlockHeight ctx < EnableHeight (GetParams ctx) ->
  CalculateBaseFee ctx = Ret (None, ctx).
Proof.
  intros Hdis. unfold CalculateBaseFee, bind, get.
  assert (Hen : IsBaseFeeEnabled (GetParams ctx) (BlockHeight ctx) = false).
  { unfold IsBaseFeeEnabled. destruct Hdis as [-> | Hlt]; [reflexivity |].
    apply andb_false_iff. right. apply Z.leb_gt. exact Hlt. }
  rewrite Hen. reflexivity.
Qed.

(** C5. In the steady state with a parent base fee, when the reconciled
    gas wanted equals the parent gas target the result is the parent base
    fee itself, whatever the minimum gas price and the other parameters. *)
Theorem CalculateBaseFee_equilibrium ctx parentBaseFee parentGasUsed ctx1 :
  SteadyState ctx ->
  BaseFee (GetParams ctx) = Some parentBaseFee ->
  0 < ElasticityMultiplier (GetParams ctx) ->
  CalculateBlockGasWanted ctx = Ret ((parentGasUsed, None), ctx1) ->
  parentGasUsed = parentGasTarget ctx ->
  CalculateBaseFee ctx = Ret (Some parentBaseFee, ctx1).
Proof.
  intros Hsteady Hfee He Hgas Heq.
  rewrite (CalculateBaseFee_steady ctx parentBaseFee parentGasUsed ctx1)
    by (auto; lia).
  cbv zeta.
  apply CalculateBlockGasWanted_success in Hgas as [Hrange _].
  rewrite <- Heq.
  rewrite (proj2 (Int_IsUint64_iff parentGasUsed) Hrange). cbn [negb].
  rewrite Z.eqb_refl. reflexivity.
Qed.

(** C1, as the code has it. In the steady state with a parent base fee
    and a parent gas target of 0, the result is the zero fee when the
    reconciled gas wanted is not 0; when it is 0 too, the equilibrium
    test comes first and the parent base fee is returned unchanged. *)
Theorem CalculateBaseFee_zero_target ctx parentBaseFee parentGasUsed ctx1 :
  SteadyState ctx ->
  BaseFee (GetParams ctx) = Some parentBaseFee ->
  0 < ElasticityMultiplier (GetParams ctx) ->
  CalculateBlockGasWanted ctx = Ret ((parentGasUsed, None), ctx1) ->
  parentGasTarget ctx = 0 ->
  (parentGasUsed <> 0 ->
   CalculateBaseFee ctx = Ret (Some LegacyZeroDec, ctx1)) /\
  (parentGasUsed = 0 ->
   CalculateBaseFee ctx = Ret (Some parentBaseFee, ctx1)).
Proof.
  intros Hsteady Hfee He Hgas Ht.
  rewrite (CalculateBaseFee_steady ctx parentBaseFee parentGasUsed ctx1)
    by (auto; lia).
  cbv zeta. rewrite Ht. cbn [Int_IsUint64 Int_IsZero Z.leb Z.eqb negb andb].
  change (0 ?= MaxUint64) with Lt. cbv iota.
  split; intros Hused.
  - apply Z.eqb_neq in Hused. rewrite Hused. reflexivity.
  - rewrite Hused. reflexivity.
Qed.





(** For a signed 64-bit [MaxGas] and a positive elasticity multiplier the
    target always fits an unsigned 64-bit integer: the test of the target
    in [CalculateBaseFee] is a defensive one. *)
Lemma parentGasTarget_fits ctx :
  0 < ElasticityMultiplier (GetParams ctx) ->
  (forall block, Block (ConsensusParams ctx) = Some block ->
                 MaxGas block <= MaxInt64) ->
  Int_IsUint64 (parentGasTarget ctx) = true.
Proof.
  intros He Hmax.
  assert (Hlimit : 0 <= gasLimit ctx <= MaxUint64).
  { unfold gasLimit, NewInt, NewIntFromUint64.
    destruct (Block (ConsensusParams ctx)) as [block |].
    - specialize (Hmax block eq_refl). unfold MaxInt64 in Hmax.
      destruct (Z.gtb_spec (MaxGas block) (-1)); unfold MaxUint64; lia.
    - unfold MaxUint64. lia. }
  apply Int_IsUint64_iff. unfold parentGasTarget. split.
  - apply Z.quot_pos; lia.
  - pose proof (quot_abs_le (gasLimit ctx)
                            (ElasticityMultiplier (GetParams ctx))
                            ltac:(lia)) as Habs.
    lia.
Qed.


(** Reconciliation never aborts on a valid input. *)
Lemma CalculateBlockGasWanted_total ctx :
  ValidInput ctx ->
  exists gasWanted err ctx1,
    CalculateBlockGasWanted ctx = Ret ((gasWanted, err), ctx1).
Proof.
  intros (_ & _ & Hm & Hw & Hmeter & _).
  destruct (BlockGasMeter ctx) as [meter |] eqn:E.
  - specialize (Hmeter meter eq_refl).
    destruct (Int_IsInt64 (GetTransientGasWanted ctx)) eqn:Hw64.
    + destruct (Int_IsInt64 (GasConsumedToLimit meter)) eqn:Hu64.
      * apply Int_IsInt64_iff in Hw64, Hu64.
        destruct (CalculateBlockGasWanted_in_range ctx meter E) as [Hrun _];
          try lia.
        do 3 eexists. exact Hrun.
      * rewrite CalculateBlockGasWanted_cases, E. cbv zeta.
        rewrite Hw64, Hu64. cbn [negb]. do 3 eexists. reflexivity.
    + rewrite CalculateBlockGasWanted_cases, E. cbv zeta.
      rewrite Hw64. cbn [negb]. do 3 eexists. reflexivity.
  - rewrite CalculateBlockGasWanted_cases, E. do 3 eexists. reflexivity.
Qed.


End BaseFeeCalculation.

(** * The scenarios of the tests, and instances of the theorems *)

Section Scenarios.
Import sdkmath.

Example test_without_base_fee :
  result (CalculateBaseFee (baseFeeCase true 0 0 0)) = Ret None.
Proof. reflexivity. Qed.

Example test_initial_block :
  result (CalculateBaseFee (baseFeeCase false 0 0 0))
  = Ret (Some DefaultBaseFee).
Proof. reflexivity. Qed.

Example test_same_gas_as_target_high_min_gas_price :
  result (CalculateBaseFee (baseFeeCase false 1 50 highMinGasPrice))
  = Ret (Some DefaultBaseFee).
Proof. vm_compute. reflexivity. Qed.

Example test_more_gas_than_target :
  result (CalculateBaseFee (baseFeeCase false 1 100 0))
  = Ret (Some (DefaultBaseFee + LegacyNewDec 109375000)).
Proof. vm_compute. reflexivity. Qed.

Example test_less_gas_than_target :
  result (CalculateBaseFee (baseFeeCase false 1 25 0))
  = Ret (Some (DefaultBaseFee - LegacyNewDec 54687500)).
Proof. vm_compute. reflexivity. Qed.

Example test_less_gas_than_target_high_min_gas_price :
  result (CalculateBaseFee (baseFeeCase false 1 25 highMinGasPrice))
  = Ret (Some highMinGasPrice).
Proof. vm_compute. reflexivity. Qed.

Example test_nil_block_gas_meter :
  result (CalculateBlockGasWanted (gasWantedCase None 0))
  = Ret (0, Some ErrBlockGasMeterNil).
Proof. reflexivity. Qed.

Example test_gas_wanted_overflow :
  result (CalculateBlockGasWanted
            (gasWantedCase (gasMeterAt 1000000000 0) MaxUint64))
  = Ret (0, Some (ErrGasWantedOverflow MaxUint64)).
Proof. vm_compute. reflexivity. Qed.

Example test_gas_used_overflow :
  result (CalculateBlockGasWanted
            (gasWantedCase (gasMeterAt MaxUint64 MaxUint64) 1000000))
  = Ret (0, Some (ErrGasUsedOverflow MaxUint64)).
Proof. vm_compute. reflexivity. Qed.

Example test_gas_used_less_than_gas_wanted :
  result (CalculateBlockGasWanted
            (gasWantedCase (gasMeterAt 1000000000 1000000) 5000000))
  = Ret (2500000, None).
Proof. vm_compute. reflexivity. Qed.

Example test_gas_used_more_than_gas_wanted :
  result (CalculateBlockGasWanted
            (gasWantedCase (gasMeterAt 1000000000 3000000) 2000000))
  = Ret (3000000, None).
Proof. vm_compute. reflexivity. Qed.

Example test_gas_used_equals_gas_wanted :
  result (CalculateBlockGasWanted
            (gasWantedCase (gasMeterAt 1000000000 2000000) 2000000))
  = Ret (2000000, None).
Proof. vm_compute. reflexivity. Qed.

(** A raw increase of 0.0025 is lifted to one unit. *)
Example small_fee_gains_one_unit :
  result (CalculateBaseFee smallFeeCongested)
  = Ret (Some (LegacyOneDec + LegacyOneDec)).
Proof. vm_compute. reflexivity. Qed.

(** C1, as stated, fails: with a gas target of 0 and a gas wanted of 0,
    in the steady state with a parent base fee, the result is the parent
    base fee and not the zero fee. *)
Lemma zero_target_zero_gas_keeps_fee :
  SteadyState zeroTargetIdle /\
  BaseFee (GetParams zeroTargetIdle) = Some DefaultBaseFee /\
  parentGasTarget zeroTargetIdle = 0 /\
  result (CalculateBlockGasWanted zeroTargetIdle) = Ret (0, None) /\
  result (CalculateBaseFee zeroTargetIdle) = Ret (Some DefaultBaseFee) /\
  result (CalculateBaseFee zeroTargetIdle) <> Ret (Some LegacyZeroDec).
Proof.
  split; [split; reflexivity |].
  repeat split; try reflexivity.
  vm_compute. discriminate.
Qed.


(** The same fee aborts the congested branch when the gas wanted is large
    enough. *)
Example huge_fee_congested_raises :
  CalculateBaseFee hugeFeeCongested = Panic IntOverflow.
Proof. vm_compute. reflexivity. Qed.

(** Instances of the theorems at the scenarios above. *)

Lemma CalculateBaseFee_zero_target_witness :
  parentGasTarget zeroTargetBusy = 0 /\
  CalculateBaseFee zeroTargetBusy
  = Ret (Some LegacyZeroDec, blockGasRecorded 10 zeroTargetBusy).
Proof.
  split; [reflexivity |].
  apply (CalculateBaseFee_zero_target
           zeroTargetBusy DefaultBaseFee 10
           (blockGasRecorded 10 zeroTargetBusy)).
  - split; reflexivity.
  - reflexivity.
  - reflexivity.
  - vm_compute. reflexivity.
  - reflexivity.
  - discriminate.
Defined.

Lemma CalculateBlockGasWanted_smooths_witness :
  exists gasWanted,
    result (CalculateBlockGasWanted
              (gasWantedCase (gasMeterAt 1000000000 1000000) 5000000))
    = Ret (gasWanted, None) /\
    gasWanted = 2500000.
Proof.
  destruct (CalculateBlockGasWanted_smooths
              (gasWantedCase (gasMeterAt 1000000000 1000000) 5000000)
              (mkGasMeter 1000000000 1000000))
    as (gasWanted & Hrun & _ & _ & Hexample & _).
  - reflexivity.
  - vm_compute. split; discriminate.
  - vm_compute. split; discriminate.
  - vm_compute. split; discriminate.
  - exists gasWanted. split.
    + rewrite Hrun. reflexivity.
    + apply Hexample; reflexivity.
Defined.



Lemma CalculateBaseFee_equilibrium_witness :
  CalculateBaseFee (baseFeeCase false 1 50 highMinGasPrice)
  = Ret (Some DefaultBaseFee,
         blockGasRecorded 50 (baseFeeCase false 1 50 highMinGasPrice)).
Proof.
  apply (CalculateBaseFee_equilibrium
           (baseFeeCase false 1 50 highMinGasPrice) DefaultBaseFee 50).
  - split; reflexivity.
  - reflexivity.
  - reflexivity.
  - vm_compute. reflexivity.
  - reflexivity.
Defined.


Lemma CalculateBlockGasWanted_overflow_witness :
  exists e,
    result (CalculateBlockGasWanted
              (gasWantedCase (gasMeterAt 1000000000 0) MaxUint64))
    = Ret (0, Some e) /\
    ArithmeticOverflow e = true.
Proof.
  destruct (CalculateBlockGasWanted_overflow
              (gasWantedCase (gasMeterAt 1000000000 0) MaxUint64)
              (mkGasMeter 1000000000 0))
    as (e & Hrun & Hover).
  - reflexivity.
  - left. reflexivity.
  - exists e. rewrite Hrun. split; [reflexivity | exact Hover].
Defined.

Lemma CalculateBaseFee_disabled_witness :
  CalculateBaseFee (baseFeeCase true 0 0 0)
  = Ret (None, baseFeeCase true 0 0 0).
Proof.
  apply (CalculateBaseFee_disabled (baseFeeCase true 0 0 0)).
  left. reflexivity.
Defined.



Lemma CalculateBlockGasWanted_error_writes_nothing_witness :
  blockGasWanted (withLoggedError ErrBlockGasMeterNil (gasWantedCase None 0))
  = blockGasWanted (gasWantedCase None 0).
Proof.
  apply (CalculateBlockGasWanted_error_writes_nothing
           (gasWantedCase None 0) 0 ErrBlockGasMeterNil
           (withLoggedError ErrBlockGasMeterNil (gasWantedCase None 0))).
  reflexivity.
Defined.

End Scenarios.


(** * Further properties of [CalculateBlockGasWanted] *)

Section GasWantedProperties.
Import sdkmath sdkmath_facts.

(** What a success return tells about the inputs and the value. *)
Lemma CalculateBlockGasWanted_success_value ctx gasWanted ctx' :
  CalculateBlockGasWanted ctx = Ret ((gasWanted, None), ctx') ->
  exists meter,
    BlockGasMeter ctx = Some meter /\
    Int_IsInt64 (GetTransientGasWanted ctx) = true /\
    Int_IsInt64 (GasConsumedToLimit meter) = true /\
    gasWanted = Z.max (TruncateInt (GetTransientGasWanted ctx
                                    * MinGasMultiplier (GetParams ctx)))
                      (GasConsumedToLimit meter).
Proof.
  rewrite CalculateBlockGasWanted_cases.
  destruct (BlockGasMeter ctx) as [meter |]; [| discriminate].
  cbv zeta.
  destruct (Int_IsInt64 (GetTransientGasWanted ctx)) eqn:Hw64;
    [| discriminate].
  destruct (Int_IsInt64 (GasConsumedToLimit meter)) eqn:Hu64;
    [| discriminate].
  cbn [negb].
  destruct (checked _) as [limited | p] eqn:Hc; [| discriminate].
  destruct (Int_Uint64 _) as [updated | p] eqn:Hu; [| discriminate].
  intros H. injection H as Hg _.
  unfold checked in Hc. destruct (IsInValidRange _); [| discriminate].
  injection Hc as <-.
  apply Int_Uint64_ret in Hu as [Hu _].
  exists meter. repeat split; auto; congruence.
Qed.

(** X1. For a multiplier in [0,1] and unsigned gas counters, the
    reconciliation succeeds exactly when a block gas meter is attached and
    both the accumulator and the capped consumed gas are at most
    [MaxInt64]. *)
Theorem CalculateBlockGasWanted_succeeds_iff ctx :
  0 <= MinGasMultiplier (GetParams ctx) <= LegacyOneDec ->
  0 <= GetTransientGasWanted ctx ->
  (forall meter, BlockGasMeter ctx = Some meter ->
                 0 <= GasConsumedToLimit meter) ->
  (exists gasWanted ctx',
      CalculateBlockGasWanted ctx = Ret ((gasWanted, None), ctx'))
  <->
  (exists meter,
      BlockGasMeter ctx = Some meter /\
      GetTransientGasWanted ctx <= MaxInt64 /\
      GasConsumedToLimit meter <= MaxInt64).
Proof.
  intros Hm Hw Hmeter. split.
  - intros (gasWanted & ctx' & Hrun).
    apply CalculateBlockGasWanted_success_value in Hrun
      as (meter & Hsome & Hw64 & Hu64 & _).
    apply Int_IsInt64_iff in Hw64, Hu64.
    exists meter. repeat split; [exact Hsome | lia | lia].
  - intros (meter & Hsome & Hw64 & Hu64).
    specialize (Hmeter meter Hsome).
    destruct (CalculateBlockGasWanted_in_range ctx meter Hsome) as [Hrun _];
      try lia.
    do 2 eexists. exact Hrun.
Qed.

(** X2. A returned error names the first check that failed: the nil-meter
    error means no meter is attached; the gas wanted overflow error carries
    the accumulator, which is outside the signed 64-bit range, whatever the
    consumed gas is; the gas used overflow error carries the capped
    consumed gas, outside the range while the accumulator is inside. *)
Theorem CalculateBlockGasWanted_error_cause ctx gasWanted e ctx' :
  CalculateBlockGasWanted ctx = Ret ((gasWanted, Some e), ctx') ->
  match e with
  | ErrBlockGasMeterNil => BlockGasMeter ctx = None
  | ErrGasWantedOverflow w =>
      BlockGasMeter ctx <> None /\
      w = GetTransientGasWanted ctx /\
      Int_IsInt64 w = false
  | ErrGasUsedOverflow u =>
      exists meter,
        BlockGasMeter ctx = Some meter /\
        u = GasConsumedToLimit meter /\
        Int_IsInt64 u = false /\
        Int_IsInt64 (GetTransientGasWanted ctx) = true
  end.
Proof.
  rewrite CalculateBlockGasWanted_cases.
  destruct (BlockGasMeter ctx) as [meter |] eqn:Hmeter.
  - cbv zeta.
    destruct (Int_IsInt64 (GetTransientGasWanted ctx)) eqn:Hw; cbn [negb].
    + destruct (Int_IsInt64 (GasConsumedToLimit meter)) eqn:Hu; cbn [negb].
      * destruct (checked _) as [limited | p]; [| discriminate].
        destruct (Int_Uint64 _) as [updated | p]; discriminate.
      * intros H. inversion H; subst. exists meter. auto.
    + intros H. inversion H; subst. repeat split; [discriminate | exact Hw].
  - intros H. inversion H; subst. reflexivity.
Qed.

(** X3. A successful reconciliation stores the value it returns, appends
    one [block_gas] event with the block height and that value, and
    changes nothing else. *)
Theorem CalculateBlockGasWanted_success_effects ctx gasWanted ctx' :
  CalculateBlockGasWanted ctx = Ret ((gasWanted, None), ctx') ->
  blockGasWanted ctx' = gasWanted /\
  events ctx' = events ctx
                ++ [mkEvent "block_gas" [("height"%string, BlockHeight ctx);
                                         ("amount"%string, gasWanted)]] /\
  errorLog ctx' = errorLog ctx /\
  GetParams ctx' = GetParams ctx /\
  GetTransientGasWanted ctx' = GetTransientGasWanted ctx /\
  BlockGasMeter ctx' = BlockGasMeter ctx /\
  BlockHeight ctx' = BlockHeight ctx /\
  ConsensusParams ctx' = ConsensusParams ctx.
Proof.
  intros H. apply CalculateBlockGasWanted_success in H as [_ ->].
  repeat split; reflexivity.
Qed.

(** X4. The reconciled gas wanted is never below the capped consumed gas
    of the meter, whatever the accumulator and the multiplier are. *)
Theorem CalculateBlockGasWanted_at_least_consumed ctx meter gasWanted ctx' :
  BlockGasMeter ctx = Some meter ->
  CalculateBlockGasWanted ctx = Ret ((gasWanted, None), ctx') ->
  GasConsumedToLimit meter <= gasWanted.
Proof.
  intros Hmeter Hrun.
  apply CalculateBlockGasWanted_success_value in Hrun
    as (meter' & Hsome & _ & _ & ->).
  rewrite Hmeter in Hsome. inversion Hsome; subst. lia.
Qed.

(** X5. With a multiplier in [0,1] the reconciled gas wanted is at most the
    larger of the accumulator and the capped consumed gas, hence at most
    [MaxInt64]. *)
Theorem CalculateBlockGasWanted_at_most_declared ctx meter gasWanted ctx' :
  BlockGasMeter ctx = Some meter ->
  0 <= MinGasMultiplier (GetParams ctx) <= LegacyOneDec ->
  0 <= GetTransientGasWanted ctx ->
  CalculateBlockGasWanted ctx = Ret ((gasWanted, None), ctx') ->
  gasWanted <= Z.max (GetTransientGasWanted ctx) (GasConsumedToLimit meter) /\
  gasWanted <= MaxInt64.
Proof.
  intros Hmeter Hm Hw Hrun.
  apply CalculateBlockGasWanted_success_value in Hrun
    as (meter' & Hsome & Hw64 & Hu64 & ->).
  rewrite Hmeter in Hsome. inversion Hsome; subst meter'.
  apply Int_IsInt64_iff in Hw64, Hu64.
  destruct (limited_wanted_bounds _ _ Hw Hm) as [_ Htrunc].
  lia.
Qed.

(** X6. The two ends of the multiplier: at 0 the reconciled gas wanted is
    the capped consumed gas, at 1 it is the larger of the accumulator and
    the capped consumed gas. *)
Theorem CalculateBlockGasWanted_multiplier_extremes ctx meter gasWanted ctx' :
  BlockGasMeter ctx = Some meter ->
  0 <= GasConsumedToLimit meter ->
  CalculateBlockGasWanted ctx = Ret ((gasWanted, None), ctx') ->
  (MinGasMultiplier (GetParams ctx) = LegacyZeroDec ->
   gasWanted = GasConsumedToLimit meter) /\
  (MinGasMultiplier (GetParams ctx) = LegacyOneDec ->
   gasWanted = Z.max (GetTransientGasWanted ctx) (GasConsumedToLimit meter)).
Proof.
  intros Hmeter Hu Hrun.
  apply CalculateBlockGasWanted_success_value in Hrun
    as (meter' & Hsome & _ & _ & ->).
  rewrite Hmeter in Hsome. inversion Hsome; subst meter'.
  split; intros ->.
  - unfold LegacyZeroDec, TruncateInt.
    rewrite Z.mul_0_r, Z.quot_0_l by (pose proof precisionReuse_pos; lia).
    lia.
  - unfold LegacyOneDec, TruncateInt.
    rewrite Z.quot_mul by (pose proof precisionReuse_pos; lia).
    reflexivity.
Qed.

(** X7. The reconciled gas wanted grows with its inputs: a larger
    accumulator, a larger multiplier and a larger capped consumed gas
    never give a smaller value. *)
Theorem CalculateBlockGasWanted_monotone
        ctx1 ctx2 meter1 meter2 gasWanted1 gasWanted2 ctx1' ctx2' :
  BlockGasMeter ctx1 = Some meter1 ->
  BlockGasMeter ctx2 = Some meter2 ->
  0 <= GetTransientGasWanted ctx1 <= GetTransientGasWanted ctx2 ->
  0 <= MinGasMultiplier (GetParams ctx1) <= MinGasMultiplier (GetParams ctx2) ->
  GasConsumedToLimit meter1 <= GasConsumedToLimit meter2 ->
  CalculateBlockGasWanted ctx1 = Ret ((gasWanted1, None), ctx1') ->
  CalculateBlockGasWanted ctx2 = Ret ((gasWanted2, None), ctx2') ->
  gasWanted1 <= gasWanted2.
Proof.
  intros Hm1 Hm2 Hw Hm Hu Hrun1 Hrun2.
  apply CalculateBlockGasWanted_success_value in Hrun1
    as (m1 & Hs1 & _ & _ & ->).
  apply CalculateBlockGasWanted_success_value in Hrun2
    as (m2 & Hs2 & _ & _ & ->).
  rewrite Hm1 in Hs1. rewrite Hm2 in Hs2.
  inversion Hs1; inversion Hs2; subst m1 m2.
  assert (Hprod : GetTransientGasWanted ctx1 * MinGasMultiplier (GetParams ctx1)
                  <= GetTransientGasWanted ctx2
                     * MinGasMultiplier (GetParams ctx2))
    by (apply Z.mul_le_mono_nonneg; lia).
  pose proof (Z.quot_le_mono _ _ precisionReuse precisionReuse_pos Hprod)
    as Hquot.
  unfold TruncateInt. lia.
Qed.

(** X8. The value and the error returned depend on the meter, the
    accumulator and the multiplier only: not on the stored block gas
    wanted, the events, the log, the height or the other parameters. *)
Theorem CalculateBlockGasWanted_reads ctx1 ctx2 :
  BlockGasMeter ctx1 = BlockGasMeter ctx2 ->
  GetTransientGasWanted ctx1 = GetTransientGasWanted ctx2 ->
  MinGasMultiplier (GetParams ctx1) = MinGasMultiplier (GetParams ctx2) ->
  result (CalculateBlockGasWanted ctx1) = result (CalculateBlockGasWanted ctx2).
Proof.
  intros Hmeter Hw Hm.
  rewrite !CalculateBlockGasWanted_cases, Hmeter, Hw, Hm.
  destruct (BlockGasMeter ctx2) as [meter |]; [| reflexivity].
  cbv zeta.
  destruct (negb (Int_IsInt64 (GetTransientGasWanted ctx2))); [reflexivity |].
  destruct (negb (Int_IsInt64 (GasConsumedToLimit meter))); [reflexivity |].
  destruct (checked _) as [limited | p]; [| reflexivity].
  destruct (Int_Uint64 _) as [updated | p]; reflexivity.
Qed.

End GasWantedProperties.


(** * Further properties of [CalculateBaseFee] *)

Section BaseFeeProperties.
Import sdkmath sdkmath_facts.

(** The context a reconciliation leaves, by its outcome. *)
Lemma CalculateBlockGasWanted_final_context ctx gasWanted err ctx1 :
  CalculateBlockGasWanted ctx = Ret ((gasWanted, err), ctx1) ->
  match err with
  | None => ctx1 = blockGasRecorded gasWanted ctx
  | Some e => ctx1 = withLoggedError e ctx
  end.
Proof.
  rewrite CalculateBlockGasWanted_cases.
  destruct (BlockGasMeter ctx) as [meter |].
  - cbv zeta.
    destruct (negb (Int_IsInt64 (GetTransientGasWanted ctx))).
    { intros H. inversion H; subst. reflexivity. }
    destruct (negb (Int_IsInt64 (GasConsumedToLimit meter))).
    { intros H. inversion H; subst. reflexivity. }
    destruct (checked _) as [limited | p]; [| discriminate].
    destruct (Int_Uint64 _) as [updated | p]; [| discriminate].
    intros H. inversion H; subst. reflexivity.
  - intros H. inversion H; subst. reflexivity.
Qed.

(** In the steady state, on a valid input, the result is [steadyBaseFee]. *)
Lemma CalculateBaseFee_closed_form ctx parentBaseFee parentGasUsed ctx1 :
  SteadyState ctx ->
  BaseFee (GetParams ctx) = Some parentBaseFee ->
  FeeInRange parentBaseFee ->
  0 < ElasticityMultiplier (GetParams ctx) ->
  0 < BaseFeeChangeDenominator (GetParams ctx) ->
  CalculateBlockGasWanted ctx = Ret ((parentGasUsed, None), ctx1) ->
  CalculateBaseFee ctx
  = Ret (steadyBaseFee ctx parentBaseFee parentGasUsed, ctx1).
Proof.
  intros Hsteady Hfee Hrange He Hd Hgas.
  pose proof (CalculateBlockGasWanted_success _ _ _ Hgas) as [Hused _].
  rewrite (CalculateBaseFee_steady ctx parentBaseFee parentGasUsed ctx1)
    by (auto; lia).
  cbv zeta. unfold steadyBaseFee, Int_IsZero.
  destruct (Int_IsUint64 (parentGasTarget ctx)) eqn:Hu; cbn [negb];
    [| reflexivity].
  apply Int_IsUint64_iff in Hu.
  destruct (Z.eqb_spec parentGasUsed (parentGasTarget ctx)); [reflexivity |].
  destruct (Z.eqb_spec (parentGasTarget ctx) 0); [reflexivity |].
  destruct (Z.gtb_spec parentGasUsed (parentGasTarget ctx)).
  - rewrite increase_outcome by (auto; lia). reflexivity.
  - rewrite decrease_outcome by (auto; lia).
    rewrite LegacyMaxDec_max. reflexivity.
Qed.

(** The three ways a valid input is answered. *)
Lemma CalculateBaseFee_valid_cases ctx :
  ValidInput ctx ->
  exists fee ctx',
    CalculateBaseFee ctx = Ret (fee, ctx') /\
    (fee = None \/
     (fee = BaseFee (GetParams ctx) /\ ctx' = ctx) \/
     exists parentBaseFee parentGasUsed,
       SteadyState ctx /\
       BaseFee (GetParams ctx) = Some parentBaseFee /\
       CalculateBlockGasWanted ctx = Ret ((parentGasUsed, None), ctx') /\
       fee = steadyBaseFee ctx parentBaseFee parentGasUsed).
Proof.
  intros Hvalid.
  destruct (CalculateBlockGasWanted_total ctx Hvalid)
    as (gasWanted & err & ctx1 & Hgas).
  destruct Hvalid as (He & Hd & _ & _ & _ & Hrange).
  destruct (BaseFee (GetParams ctx)) as [parentBaseFee |] eqn:Hfee.
  2:{ exists None, ctx. split; [| left; reflexivity].
      apply CalculateBaseFee_fee_absent. exact Hfee. }
  specialize (Hrange parentBaseFee eq_refl).
  destruct (NoBaseFee (GetParams ctx)) eqn:Hno.
  { exists None, ctx. split; [| left; reflexivity].
    unfold CalculateBaseFee, bind, get, IsBaseFeeEnabled.
    rewrite Hno. reflexivity. }
  destruct (Z.lt_trichotomy (BlockHeight ctx) (EnableHeight (GetParams ctx)))
    as [Hlt | [Heq | Hgt]].
  { exists None, ctx. split; [| left; reflexivity].
    unfold CalculateBaseFee, bind, get, IsBaseFeeEnabled.
    rewrite Hno. apply Z.leb_gt in Hlt. rewrite Hlt. reflexivity. }
  { exists (Some parentBaseFee), ctx. split; [| right; left; auto].
    unfold CalculateBaseFee, bind, get, IsBaseFeeEnabled.
    rewrite Hno, Heq, Z.leb_refl, Z.eqb_refl, Hfee. reflexivity. }
  assert (Hsteady : SteadyState ctx) by (split; assumption).
  destruct err as [e |].
  { exists None, ctx1. split; [| left; reflexivity].
    eapply CalculateBaseFee_gas_wanted_error; eassumption. }
  exists (steadyBaseFee ctx parentBaseFee gasWanted), ctx1. split.
  - apply CalculateBaseFee_closed_form; assumption.
  - right. right. exists parentBaseFee, gasWanted. auto.
Qed.

(** Bounds of the raw fee change for a non-negative fee. *)
Lemma raw_change_bounds fee gasDelta target denominator :
  0 <= fee -> 0 <= gasDelta <= target -> 0 < target -> 0 < denominator ->
  0 <= Z.quot (Z.quot (fee * gasDelta) target) denominator
    <= Z.quot fee denominator.
Proof.
  intros Hfee Hdelta Ht Hd.
  assert (H0 : 0 <= fee * gasDelta) by (apply Z.mul_nonneg_nonneg; lia).
  assert (H1 : fee * gasDelta <= fee * target)
    by (apply Z.mul_le_mono_nonneg_l; lia).
  pose proof (Z.quot_le_mono _ _ target Ht H1) as H2.
  rewrite Z.quot_mul in H2 by lia.
  pose proof (Z.quot_pos _ target H0 Ht) as H3.
  split.
  - apply Z.quot_pos; lia.
  - apply Z.quot_le_mono; lia.
Qed.

Lemma quot_le_self a b : 0 <= a -> 0 < b -> 0 <= Z.quot a b <= a.
Proof.
  intros Ha Hb. split; [apply Z.quot_pos; lia |].
  pose proof (quot_abs_le a b ltac:(lia)). 
  pose proof (Z.quot_pos a b Ha Hb). lia.
Qed.

(** X9. On the activation block (fee market enabled, height equal to the
    enable height) the result is the stored base fee itself, nil or not,
    and nothing is read from the meter or written: the gas wanted is not
    reconciled on that block. *)
Theorem CalculateBaseFee_activation ctx :
  NoBaseFee (GetParams ctx) = false ->
  BlockHeight ctx = EnableHeight (GetParams ctx) ->
  CalculateBaseFee ctx = Ret (BaseFee (GetParams ctx), ctx).
Proof.
  intros Hno Heq.
  unfold CalculateBaseFee, bind, get, IsBaseFeeEnabled.
  rewrite Hno, Heq, Z.leb_refl, Z.eqb_refl. reflexivity.
Qed.

(** The contexts [CalculateBaseFee] can leave. *)
Lemma CalculateBaseFee_final_context ctx fee ctx' :
  CalculateBaseFee ctx = Ret (fee, ctx') ->
  (ctx' = ctx \/
   (exists gasWanted, ctx' = blockGasRecorded gasWanted ctx) \/
   (exists e, ctx' = withLoggedError e ctx /\ fee = None)) /\
  GetParams ctx' = GetParams ctx.
Proof.
  unfold CalculateBaseFee, bind, get.
  destruct (IsBaseFeeEnabled _ _); cbn [negb].
  2:{ intros H. inversion H; subst. auto. }
  destruct (BlockHeight ctx =? _).
  { intros H. inversion H; subst. auto. }
  destruct (BaseFee (GetParams ctx)) as [parentBaseFee |].
  2:{ intros H. inversion H; subst. auto. }
  destruct (CalculateBlockGasWanted ctx) as [[[gasWanted err] ctx1] | p]
    eqn:Hgas; [| discriminate].
  apply CalculateBlockGasWanted_final_context in Hgas.
  destruct err as [e |].
  { intros H. inversion H; subst. split; [| reflexivity].
    right. right. exists e. auto. }
  subst ctx1.
  assert (Hshape : forall (r : option LegacyDec) c,
             c = blockGasRecorded gasWanted ctx ->
             (c = ctx \/
              (exists g, c = blockGasRecorded g ctx) \/
              (exists e, c = withLoggedError e ctx /\ r = None)) /\
             GetParams c = GetParams ctx).
  { intros r c ->. split; [| reflexivity]. right. left. eauto. }
  repeat match goal with
         | |- context [lift ?o _] => destruct o; cbn [lift]
         | |- context [if ?b then _ else _] => destruct b
         end;
    try discriminate;
    intros H; inversion H; subst; apply Hshape; reflexivity.
Qed.


(** The steady-state fee of a non-negative parent fee is not negative. *)
Lemma steadyBaseFee_nonnegative ctx parentBaseFee parentGasUsed fee :
  0 <= parentBaseFee ->
  0 < BaseFeeChangeDenominator (GetParams ctx) ->
  0 <= parentGasUsed ->
  steadyBaseFee ctx parentBaseFee parentGasUsed = Some fee ->
  0 <= fee.
Proof.
  intros Hpos Hd Hused Hr.
  unfold steadyBaseFee in Hr.
  destruct (Int_IsUint64 (parentGasTarget ctx)) eqn:Hu; cbn [negb] in Hr;
    [| discriminate].
  apply Int_IsUint64_iff in Hu.
  destruct (Z.eqb_spec parentGasUsed (parentGasTarget ctx)).
  { inversion Hr; subst. exact Hpos. }
  destruct (Z.eqb_spec (parentGasTarget ctx) 0).
  { inversion Hr; subst. unfold LegacyZeroDec. lia. }
  destruct (Z.gtb_spec parentGasUsed (parentGasTarget ctx));
    inversion Hr; subst.
  - pose proof precisionReuse_pos. unfold LegacyOneDec. lia.
  - pose proof (raw_change_bounds parentBaseFee
                  (parentGasTarget ctx - parentGasUsed)
                  (parentGasTarget ctx)
                  (BaseFeeChangeDenominator (GetParams ctx))
                  Hpos ltac:(lia) ltac:(lia) Hd) as Hraw.
    pose proof (quot_le_self parentBaseFee
                  (BaseFeeChangeDenominator (GetParams ctx)) Hpos Hd).
    lia.
Qed.

Lemma valid_result_nonnegative ctx parentBaseFee :
  ValidInput ctx ->
  BaseFee (GetParams ctx) = Some parentBaseFee ->
  0 <= parentBaseFee ->
  exists result ctx',
    CalculateBaseFee ctx = Ret (result, ctx') /\
    GetParams ctx' = GetParams ctx /\
    forall fee, result = Some fee -> 0 <= fee.
Proof.
  intros Hvalid Hfee Hpos.
  destruct (CalculateBaseFee_valid_cases ctx Hvalid)
    as (r & ctx' & Hrun & Hcases).
  exists r, ctx'. split; [exact Hrun |].
  split; [exact (proj2 (CalculateBaseFee_final_context _ _ _ Hrun)) |].
  intros fee ->.
  destruct Hcases as [Hnone | [[Hseed _] | (p & g & _ & Hp & Hgas & Hr)]].
  - discriminate.
  - rewrite Hfee in Hseed. inversion Hseed; subst. exact Hpos.
  - rewrite Hfee in Hp. inversion Hp; subst p.
    destruct Hvalid as (_ & Hd & _).
    apply CalculateBlockGasWanted_success in Hgas as [Hused _].
    apply (steadyBaseFee_nonnegative ctx parentBaseFee g fee Hpos Hd
             ltac:(lia)).
    symmetry. exact Hr.
Qed.

(** X11. A non-negative stored base fee gives a non-negative result: on a
    valid input [CalculateBaseFee] returns, and a fee it returns is not
    negative, whatever the minimum gas price is. *)
Theorem CalculateBaseFee_nonnegative ctx parentBaseFee :
  ValidInput ctx ->
  BaseFee (GetParams ctx) = Some parentBaseFee ->
  0 <= parentBaseFee ->
  exists result ctx',
    CalculateBaseFee ctx = Ret (result, ctx') /\
    forall fee, result = Some fee -> 0 <= fee.
Proof.
  intros Hvalid Hfee Hpos.
  destruct (valid_result_nonnegative ctx parentBaseFee Hvalid Hfee Hpos)
    as (r & ctx' & Hrun & _ & Hnonneg).
  exists r, ctx'. split; assumption.
Qed.

(** X12. The change of one block is bounded. In the steady state, for a
    non-negative parent base fee and a gas wanted of at most twice the
    target, the new fee is at least parentBaseFee - parentBaseFee /
    denominator, and at most the larger of the minimum gas price and
    parentBaseFee + max (parentBaseFee / denominator, one unit). *)
Theorem CalculateBaseFee_bounded_change ctx parentBaseFee parentGasUsed ctx1 :
  ValidInput ctx ->
  SteadyState ctx ->
  BaseFee (GetParams ctx) = Some parentBaseFee ->
  0 <= parentBaseFee ->
  CalculateBlockGasWanted ctx = Ret ((parentGasUsed, None), ctx1) ->
  parentGasUsed <= 2 * parentGasTarget ctx ->
  parentGasTarget ctx <= MaxUint64 ->
  let step := Z.quot parentBaseFee (BaseFeeChangeDenominator (GetParams ctx)) in
  exists fee,
    CalculateBaseFee ctx = Ret (Some fee, ctx1) /\
    parentBaseFee - step <= fee /\
    fee <= Z.max (parentBaseFee + Z.max step LegacyOneDec)
                 (MinGasPrice (GetParams ctx)).
Proof.
  intros Hvalid Hsteady Hfee Hpos Hgas Htwice Hfits step.
  destruct Hvalid as (He & Hd & _ & _ & _ & Hrange).
  specialize (Hrange parentBaseFee Hfee).
  rewrite (CalculateBaseFee_closed_form ctx parentBaseFee parentGasUsed ctx1)
    by assumption.
  apply CalculateBlockGasWanted_success in Hgas as [Hused _].
  pose proof (quot_le_self parentBaseFee _ Hpos Hd) as Hstep. fold step in Hstep.
  pose proof precisionReuse_pos as Hone.
  unfold steadyBaseFee.
  rewrite (proj2 (Int_IsUint64_iff (parentGasTarget ctx))) by lia.
  cbn [negb].
  destruct (Z.eqb_spec parentGasUsed (parentGasTarget ctx)).
  { eexists. split; [reflexivity |]. unfold LegacyOneDec. lia. }
  destruct (Z.eqb_spec (parentGasTarget ctx) 0); [lia |].
  destruct (Z.gtb_spec parentGasUsed (parentGasTarget ctx)).
  - pose proof (raw_change_bounds parentBaseFee
                  (parentGasUsed - parentGasTarget ctx) (parentGasTarget ctx)
                  (BaseFeeChangeDenominator (GetParams ctx))
                  Hpos ltac:(lia) ltac:(lia) Hd) as Hraw.
    fold step in Hraw.
    eexists. split; [reflexivity |]. unfold LegacyOneDec. lia.
  - pose proof (raw_change_bounds parentBaseFee
                  (parentGasTarget ctx - parentGasUsed) (parentGasTarget ctx)
                  (BaseFeeChangeDenominator (GetParams ctx))
                  Hpos ltac:(lia) ltac:(lia) Hd) as Hraw.
    fold step in Hraw.
    eexists. split; [reflexivity |]. unfold LegacyOneDec. lia.
Qed.

(** The reconciliation does not read the minimum gas price. *)
Lemma CalculateBlockGasWanted_withMinGasPrice price ctx :
  CalculateBlockGasWanted (withMinGasPrice price ctx)
  = match CalculateBlockGasWanted ctx with
    | Ret (r, ctx1) => Ret (r, withMinGasPrice price ctx1)
    | Panic p => Panic p
    end.
Proof.
  rewrite !CalculateBlockGasWanted_cases.
  change (BlockGasMeter (withMinGasPrice price ctx)) with (BlockGasMeter ctx).
  destruct (BlockGasMeter ctx) as [meter |]; [| reflexivity].
  cbv zeta.
  change (GetTransientGasWanted (withMinGasPrice price ctx))
    with (GetTransientGasWanted ctx).
  change (MinGasMultiplier (GetParams (withMinGasPrice price ctx)))
    with (MinGasMultiplier (GetParams ctx)).
  destruct (negb (Int_IsInt64 (GetTransientGasWanted ctx))); [reflexivity |].
  destruct (negb (Int_IsInt64 (GasConsumedToLimit meter))); [reflexivity |].
  destruct (checked _) as [limited | p]; [| reflexivity].
  destruct (Int_Uint64 _) as [updated | p]; reflexivity.
Qed.

(** X13. The minimum gas price is a floor of the slack branch only: in the
    steady state, when the gas wanted is at or above the target, the
    result is the same whatever the minimum gas price is, and so can be
    below it. *)
Theorem CalculateBaseFee_min_gas_price_unused
        ctx parentBaseFee parentGasUsed ctx1 price :
  SteadyState ctx ->
  BaseFee (GetParams ctx) = Some parentBaseFee ->
  0 < ElasticityMultiplier (GetParams ctx) ->
  CalculateBlockGasWanted ctx = Ret ((parentGasUsed, None), ctx1) ->
  parentGasTarget ctx <= parentGasUsed ->
  result (CalculateBaseFee (withMinGasPrice price ctx))
  = result (CalculateBaseFee ctx).
Proof.
  intros Hsteady Hfee He Hgas Hge.
  pose proof (CalculateBlockGasWanted_withMinGasPrice price ctx) as Hgas'.
  rewrite Hgas in Hgas'.
  rewrite (CalculateBaseFee_steady ctx parentBaseFee parentGasUsed ctx1)
    by (auto; lia).
  rewrite (CalculateBaseFee_steady (withMinGasPrice price ctx) parentBaseFee
             parentGasUsed (withMinGasPrice price ctx1));
    [| exact Hsteady | exact Hfee | exact Hgas'
     | change (ElasticityMultiplier (GetParams ctx) <> 0); lia].
  cbv zeta.
  change (parentGasTarget (withMinGasPrice price ctx))
    with (parentGasTarget ctx).
  change (BaseFeeChangeDenominator (GetParams (withMinGasPrice price ctx)))
    with (BaseFeeChangeDenominator (GetParams ctx)).
  destruct (negb (Int_IsUint64 (parentGasTarget ctx))); [reflexivity |].
  destruct (Z.eqb_spec parentGasUsed (parentGasTarget ctx)); [reflexivity |].
  destruct (Int_IsZero (parentGasTarget ctx)); [reflexivity |].
  destruct (Z.gtb_spec parentGasUsed (parentGasTarget ctx)); [| lia].
  destruct (obind _ _) as [fee | p]; reflexivity.
Qed.

(** X14. In the slack branch a minimum gas price at or above a
    non-negative parent base fee is the result. *)
Theorem CalculateBaseFee_slack_floor_binds
        ctx parentBaseFee parentGasUsed ctx1 :
  ValidInput ctx ->
  SteadyState ctx ->
  BaseFee (GetParams ctx) = Some parentBaseFee ->
  0 <= parentBaseFee <= MinGasPrice (GetParams ctx) ->
  CalculateBlockGasWanted ctx = Ret ((parentGasUsed, None), ctx1) ->
  parentGasUsed < parentGasTarget ctx <= MaxUint64 ->
  CalculateBaseFee ctx = Ret (Some (MinGasPrice (GetParams ctx)), ctx1).
Proof.
  intros Hvalid Hsteady Hfee Hprice Hgas Ht.
  destruct Hvalid as (He & Hd & _ & _ & _ & Hrange).
  specialize (Hrange parentBaseFee Hfee).
  rewrite (CalculateBaseFee_closed_form ctx parentBaseFee parentGasUsed ctx1)
    by assumption.
  apply CalculateBlockGasWanted_success in Hgas as [Hused _].
  unfold steadyBaseFee.
  rewrite (proj2 (Int_IsUint64_iff (parentGasTarget ctx))) by lia.
  cbn [negb].
  destruct (Z.eqb_spec parentGasUsed (parentGasTarget ctx)); [lia |].
  destruct (Z.eqb_spec (parentGasTarget ctx) 0); [lia |].
  destruct (Z.gtb_spec parentGasUsed (parentGasTarget ctx)); [lia |].
  pose proof (raw_change_bounds parentBaseFee
                (parentGasTarget ctx - parentGasUsed) (parentGasTarget ctx)
                (BaseFeeChangeDenominator (GetParams ctx))
                ltac:(lia) ltac:(lia) ltac:(lia) Hd) as Hraw.
  rewrite Z.max_r by lia. reflexivity.
Qed.

End BaseFeeProperties.


(** * Properties of [EndBlock] *)

Section EndBlockProperties.
Import sdkmath sdkmath_facts.

(** [EndBlock] after [CalculateBaseFee]. *)
Lemma EndBlock_run ctx fee ctx1 :
  CalculateBaseFee ctx = Ret (fee, ctx1) ->
  EndBlock ctx
  = Ret (None, match fee with
               | Some f => baseFeeStored f ctx1
               | None => ctx1
               end).
Proof.
  intros H. unfold EndBlock, bind. rewrite H.
  destruct fee; reflexivity.
Qed.

Lemma EndBlock_inv ctx r ctx' :
  EndBlock ctx = Ret (r, ctx') ->
  exists fee ctx1,
    CalculateBaseFee ctx = Ret (fee, ctx1) /\
    r = None /\
    ctx' = match fee with
           | Some f => baseFeeStored f ctx1
           | None => ctx1
           end.
Proof.
  unfold EndBlock, bind.
  destruct (CalculateBaseFee ctx) as [[fee ctx1] | p]; [| discriminate].
  intros H. exists fee, ctx1. split; [reflexivity |].
  destruct fee; inversion H; subst; auto.
Qed.

Lemma withBaseFee_same p fee :
  BaseFee p = Some fee -> withBaseFee (Some fee) p = p.
Proof. destruct p. cbn. intros ->. reflexivity. Qed.

(** X15. On a valid input [EndBlock] returns, and returns the nil error:
    it never aborts and never reports a failure, not even that of the gas
    wanted reconciliation. *)
Theorem EndBlock_never_fails ctx :
  ValidInput ctx ->
  exists ctx', EndBlock ctx = Ret (None, ctx').
Proof.
  intros Hvalid.
  destruct (CalculateBaseFee_valid_cases ctx Hvalid)
    as (fee & ctx1 & Hrun & _).
  eexists. apply EndBlock_run. exact Hrun.
Qed.

(** X16. [EndBlock] stores exactly what [CalculateBaseFee] returns: a
    fee becomes the stored base fee and is announced by one event after
    the events of the calculation; the nil fee leaves the context of the
    calculation as it is, with the stored base fee untouched. The stored
    block gas wanted is that of the calculation. *)
Theorem EndBlock_stores_computed_fee ctx fee ctx1 :
  CalculateBaseFee ctx = Ret (fee, ctx1) ->
  exists ctx2,
    EndBlock ctx = Ret (None, ctx2) /\
    match fee with
    | Some f =>
        BaseFee (GetParams ctx2) = Some f /\
        events ctx2
        = events ctx1 ++ [mkEvent EventTypeFeeMarket [(AttributeKeyBaseFee, f)]]
    | None =>
        ctx2 = ctx1 /\ BaseFee (GetParams ctx2) = BaseFee (GetParams ctx)
    end /\
    blockGasWanted ctx2 = blockGasWanted ctx1.
Proof.
  intros Hrun. eexists. split; [apply EndBlock_run; exact Hrun |].
  destruct fee as [f |].
  - repeat split; reflexivity.
  - pose proof (CalculateBaseFee_final_context _ _ _ Hrun) as [_ Hp].
    rewrite Hp. repeat split; reflexivity.
Qed.

(** X17. A failure of the gas wanted reconciliation is swallowed: in the
    steady state with a stored base fee, when [CalculateBlockGasWanted]
    returns an error, [EndBlock] returns the nil error and leaves the
    initial context with the error logged: no fee is stored, no gas wanted
    recorded, no event emitted. *)
Theorem EndBlock_swallows_reconciliation_error
        ctx parentBaseFee gasWanted e ctx1 :
  SteadyState ctx ->
  BaseFee (GetParams ctx) = Some parentBaseFee ->
  CalculateBlockGasWanted ctx = Ret ((gasWanted, Some e), ctx1) ->
  EndBlock ctx = Ret (None, withLoggedError e ctx).
Proof.
  intros Hsteady Hfee Hgas.
  pose proof (CalculateBlockGasWanted_final_context _ _ _ _ Hgas) as Hctx.
  cbn in Hctx. subst ctx1.
  rewrite (EndBlock_run ctx None (withLoggedError e ctx)); [reflexivity |].
  eapply CalculateBaseFee_gas_wanted_error; eassumption.
Qed.

(** X18. The equilibrium is a fixed point of [EndBlock]: when the
    reconciled gas wanted equals the target, the parameters after the
    block, the stored base fee among them, are those before it. *)
Theorem EndBlock_equilibrium_fixed_point ctx parentBaseFee parentGasUsed ctx1 :
  SteadyState ctx ->
  BaseFee (GetParams ctx) = Some parentBaseFee ->
  0 < ElasticityMultiplier (GetParams ctx) ->
  CalculateBlockGasWanted ctx = Ret ((parentGasUsed, None), ctx1) ->
  parentGasUsed = parentGasTarget ctx ->
  exists ctx2,
    EndBlock ctx = Ret (None, ctx2) /\
    GetParams ctx2 = GetParams ctx /\
    blockGasWanted ctx2 = parentGasUsed.
Proof.
  intros Hsteady Hfee He Hgas Heq.
  assert (Hrun : CalculateBaseFee ctx = Ret (Some parentBaseFee, ctx1)).
  { rewrite (CalculateBaseFee_steady ctx parentBaseFee parentGasUsed ctx1)
      by (auto; lia).
    cbv zeta.
    pose proof (CalculateBlockGasWanted_success _ _ _ Hgas) as [Hused _].
    rewrite <- Heq.
    rewrite (proj2 (Int_IsUint64_iff parentGasUsed) Hused). cbn [negb].
    rewrite Z.eqb_refl. reflexivity. }
  eexists. split; [apply EndBlock_run; exact Hrun |].
  apply CalculateBlockGasWanted_success in Hgas as [_ ->].
  split; [| reflexivity].
  cbn. apply withBaseFee_same. exact Hfee.
Qed.

(** X19. A stored base fee that is present and not negative stays so
    across [EndBlock] on a valid input. *)
Theorem EndBlock_keeps_fee_nonnegative ctx parentBaseFee :
  ValidInput ctx ->
  BaseFee (GetParams ctx) = Some parentBaseFee ->
  0 <= parentBaseFee ->
  exists ctx' fee,
    EndBlock ctx = Ret (None, ctx') /\
    BaseFee (GetParams ctx') = Some fee /\
    0 <= fee.
Proof.
  intros Hvalid Hfee Hpos.
  destruct (valid_result_nonnegative ctx parentBaseFee Hvalid Hfee Hpos)
    as (r & ctx1 & Hrun & Hparams & Hnonneg).
  destruct r as [f |].
  - exists (baseFeeStored f ctx1), f.
    split; [exact (EndBlock_run ctx (Some f) ctx1 Hrun) |].
    split; [reflexivity | apply Hnonneg; reflexivity].
  - exists ctx1, parentBaseFee.
    split; [exact (EndBlock_run ctx None ctx1 Hrun) |].
    split; [rewrite Hparams; exact Hfee | exact Hpos].
Qed.

(** X20. With the fee market disabled ([noBaseFee] set, or a height below
    the enable height) [EndBlock] does nothing at all: no fee stored, no
    gas wanted reconciled, no event, no log entry. *)
Theorem EndBlock_disabled ctx :
  NoBaseFee (GetParams ctx) = true \/
  BlockHeight ctx < EnableHeight (GetParams ctx) ->
  EndBlock ctx = Ret (None, ctx).
Proof.
  intros Hdis.
  rewrite (EndBlock_run ctx None ctx); [reflexivity |].
  unfold CalculateBaseFee, bind, get, IsBaseFeeEnabled.
  destruct Hdis as [-> | Hlt]; [reflexivity |].
  apply Z.leb_gt in Hlt. rewrite Hlt, andb_false_r. reflexivity.
Qed.

(** X21. Whatever [EndBlock] does, it returns the nil error and touches
    neither the meter, the accumulator, the height, the consensus
    parameters nor any parameter other than the base fee. *)
Theorem EndBlock_frame ctx r ctx' :
  EndBlock ctx = Ret (r, ctx') ->
  r = None /\
  BlockGasMeter ctx' = BlockGasMeter ctx /\
  GetTransientGasWanted ctx' = GetTransientGasWanted ctx /\
  BlockHeight ctx' = BlockHeight ctx /\
  ConsensusParams ctx' = ConsensusParams ctx /\
  withBaseFee None (GetParams ctx') = withBaseFee None (GetParams ctx).
Proof.
  intros H.
  apply EndBlock_inv in H as (fee & ctx1 & Hrun & -> & ->).
  apply CalculateBaseFee_final_context in Hrun
    as [[-> | [[g ->] | [e [-> _]]]] _];
    destruct fee; repeat split; reflexivity.
Qed.

End EndBlockProperties.


(** * Instances of the further properties *)

Section FurtherInstances.
Import sdkmath.

Lemma ValidInput_baseFeeCase noBaseFee height gasUsed minGasPrice :
  0 <= gasUsed ->
  ValidInput (baseFeeCase noBaseFee height gasUsed minGasPrice).
Proof.
  intros Hused. unfold ValidInput.
  split; [reflexivity |].
  split; [reflexivity |].
  split; [vm_compute; split; discriminate |].
  split; [exact Hused |].
  split.
  - intros meter H. injection H as <-.
    unfold GasConsumedToLimit, IsPastLimit. cbn [limit consumed].
    destruct (gasUsed >? 1000000000); lia.
  - intros fee H. injection H as <-. vm_compute. reflexivity.
Defined.

Lemma CalculateBlockGasWanted_succeeds_iff_witness :
  exists gasWanted ctx',
    CalculateBlockGasWanted
      (gasWantedCase (gasMeterAt 1000000000 1000000) 5000000)
    = Ret ((gasWanted, None), ctx').
Proof.
  apply (CalculateBlockGasWanted_succeeds_iff
           (gasWantedCase (gasMeterAt 1000000000 1000000) 5000000)).
  - vm_compute. split; discriminate.
  - vm_compute. discriminate.
  - intros meter H. injection H as <-. vm_compute. discriminate.
  - exists (mkGasMeter 1000000000 1000000).
    split; [reflexivity |]. split; vm_compute; discriminate.
Defined.

Lemma CalculateBlockGasWanted_error_cause_witness :
  exists meter,
    BlockGasMeter (gasWantedCase (gasMeterAt MaxUint64 MaxUint64) 1000000)
    = Some meter /\
    MaxUint64 = GasConsumedToLimit meter /\
    Int_IsInt64 MaxUint64 = false /\
    Int_IsInt64 1000000 = true.
Proof.
  apply (CalculateBlockGasWanted_error_cause
           (gasWantedCase (gasMeterAt MaxUint64 MaxUint64) 1000000)
           0 (ErrGasUsedOverflow MaxUint64)
           (withLoggedError
              (ErrGasUsedOverflow MaxUint64)
              (gasWantedCase (gasMeterAt MaxUint64 MaxUint64) 1000000))).
  vm_compute. reflexivity.
Defined.

Lemma CalculateBlockGasWanted_success_effects_witness :
  blockGasWanted
    (blockGasRecorded
       2500000 (gasWantedCase (gasMeterAt 1000000000 1000000) 5000000))
  = 2500000.
Proof.
  apply (CalculateBlockGasWanted_success_effects
           (gasWantedCase (gasMeterAt 1000000000 1000000) 5000000)
           2500000).
  vm_compute. reflexivity.
Defined.

Lemma CalculateBlockGasWanted_at_least_consumed_witness :
  GasConsumedToLimit (mkGasMeter 1000000000 3000000) <= 3000000.
Proof.
  apply (CalculateBlockGasWanted_at_least_consumed
           (gasWantedCase (gasMeterAt 1000000000 3000000) 2000000)
           (mkGasMeter 1000000000 3000000) 3000000
           (blockGasRecorded
              3000000
              (gasWantedCase (gasMeterAt 1000000000 3000000) 2000000))).
  - reflexivity.
  - vm_compute. reflexivity.
Defined.

Lemma CalculateBlockGasWanted_at_most_declared_witness :
  2500000 <= Z.max 5000000 (GasConsumedToLimit (mkGasMeter 1000000000 1000000))
  /\ 2500000 <= MaxInt64.
Proof.
  apply (CalculateBlockGasWanted_at_most_declared
           (gasWantedCase (gasMeterAt 1000000000 1000000) 5000000)
           (mkGasMeter 1000000000 1000000) 2500000
           (blockGasRecorded
              2500000
              (gasWantedCase (gasMeterAt 1000000000 1000000) 5000000))).
  - reflexivity.
  - vm_compute. split; discriminate.
  - vm_compute. discriminate.
  - vm_compute. reflexivity.
Defined.

Lemma CalculateBlockGasWanted_multiplier_extremes_witness :
  5000000
  = Z.max 5000000 (GasConsumedToLimit (mkGasMeter 1000000000 1000000)).
Proof.
  apply (CalculateBlockGasWanted_multiplier_extremes
           (fullMultiplierCase (gasMeterAt 1000000000 1000000) 5000000)
           (mkGasMeter 1000000000 1000000) 5000000
           (blockGasRecorded
              5000000
              (fullMultiplierCase (gasMeterAt 1000000000 1000000) 5000000))).
  - reflexivity.
  - vm_compute. discriminate.
  - vm_compute. reflexivity.
  - reflexivity.
Defined.

Lemma CalculateBlockGasWanted_monotone_witness : 2500000 <= 3000000.
Proof.
  apply (CalculateBlockGasWanted_monotone
           (gasWantedCase (gasMeterAt 1000000000 1000000) 5000000)
           (gasWantedCase (gasMeterAt 1000000000 2000000) 6000000)
           (mkGasMeter 1000000000 1000000) (mkGasMeter 1000000000 2000000)
           2500000 3000000
           (blockGasRecorded
              2500000
              (gasWantedCase (gasMeterAt 1000000000 1000000) 5000000))
           (blockGasRecorded
              3000000
              (gasWantedCase (gasMeterAt 1000000000 2000000) 6000000))).
  - reflexivity.
  - reflexivity.
  - vm_compute. split; discriminate.
  - vm_compute. split; discriminate.
  - vm_compute. discriminate.
  - vm_compute. reflexivity.
  - vm_compute. reflexivity.
Defined.

Lemma CalculateBlockGasWanted_reads_witness :
  result (CalculateBlockGasWanted
            (gasWantedCase (gasMeterAt 1000000000 25) 25))
  = result (CalculateBlockGasWanted (baseFeeCase false 7 25 highMinGasPrice)).
Proof.
  apply (CalculateBlockGasWanted_reads
           (gasWantedCase (gasMeterAt 1000000000 25) 25)
           (baseFeeCase false 7 25 highMinGasPrice)).
  - reflexivity.
  - reflexivity.
  - reflexivity.
Defined.

Lemma CalculateBaseFee_activation_witness :
  CalculateBaseFee (baseFeeCase false 0 0 0)
  = Ret (Some DefaultBaseFee, baseFeeCase false 0 0 0).
Proof.
  apply (CalculateBaseFee_activation (baseFeeCase false 0 0 0)).
  - reflexivity.
  - reflexivity.
Defined.


Lemma CalculateBaseFee_nonnegative_witness :
  exists result ctx',
    CalculateBaseFee (baseFeeCase false 1 25 0) = Ret (result, ctx') /\
    forall fee, result = Some fee -> 0 <= fee.
Proof.
  apply (CalculateBaseFee_nonnegative (baseFeeCase false 1 25 0) DefaultBaseFee).
  - apply ValidInput_baseFeeCase. discriminate.
  - reflexivity.
  - vm_compute. discriminate.
Defined.

Lemma CalculateBaseFee_bounded_change_witness :
  exists fee,
    CalculateBaseFee (baseFeeCase false 1 100 0)
    = Ret (Some fee, blockGasRecorded 100 (baseFeeCase false 1 100 0)) /\
    DefaultBaseFee - Z.quot DefaultBaseFee 8 <= fee /\
    fee <= Z.max (DefaultBaseFee + Z.max (Z.quot DefaultBaseFee 8) LegacyOneDec)
                 0.
Proof.
  apply (CalculateBaseFee_bounded_change
           (baseFeeCase false 1 100 0) DefaultBaseFee 100
           (blockGasRecorded 100 (baseFeeCase false 1 100 0))).
  - apply ValidInput_baseFeeCase. discriminate.
  - split; reflexivity.
  - reflexivity.
  - vm_compute. discriminate.
  - vm_compute. reflexivity.
  - vm_compute. discriminate.
  - vm_compute. discriminate.
Defined.

Lemma CalculateBaseFee_min_gas_price_unused_witness :
  result (CalculateBaseFee
            (withMinGasPrice highMinGasPrice (baseFeeCase false 1 100 0)))
  = result (CalculateBaseFee (baseFeeCase false 1 100 0)).
Proof.
  apply (CalculateBaseFee_min_gas_price_unused
           (baseFeeCase false 1 100 0) DefaultBaseFee 100
           (blockGasRecorded 100 (baseFeeCase false 1 100 0))
           highMinGasPrice).
  - split; reflexivity.
  - reflexivity.
  - reflexivity.
  - vm_compute. reflexivity.
  - vm_compute. discriminate.
Defined.

Lemma CalculateBaseFee_slack_floor_binds_witness :
  CalculateBaseFee (baseFeeCase false 1 25 highMinGasPrice)
  = Ret (Some highMinGasPrice,
         blockGasRecorded 25 (baseFeeCase false 1 25 highMinGasPrice)).
Proof.
  apply (CalculateBaseFee_slack_floor_binds
           (baseFeeCase false 1 25 highMinGasPrice) DefaultBaseFee 25).
  - apply ValidInput_baseFeeCase. discriminate.
  - split; reflexivity.
  - reflexivity.
  - vm_compute. split; discriminate.
  - vm_compute. reflexivity.
  - vm_compute. split; [reflexivity | discriminate].
Defined.

Lemma EndBlock_never_fails_witness :
  exists ctx', EndBlock (baseFeeCase false 1 100 0) = Ret (None, ctx').
Proof.
  apply (EndBlock_never_fails (baseFeeCase false 1 100 0)).
  apply ValidInput_baseFeeCase. discriminate.
Defined.

Lemma EndBlock_stores_computed_fee_witness :
  exists ctx2,
    EndBlock (baseFeeCase false 1 100 0) = Ret (None, ctx2) /\
    BaseFee (GetParams ctx2)
    = Some (DefaultBaseFee + LegacyNewDec 109375000).
Proof.
  destruct (EndBlock_stores_computed_fee
              (baseFeeCase false 1 100 0)
              (Some (DefaultBaseFee + LegacyNewDec 109375000))
              (blockGasRecorded 100 (baseFeeCase false 1 100 0)))
    as (ctx2 & Hrun & [Hfee _] & _).
  - vm_compute. reflexivity.
  - exists ctx2. split; assumption.
Defined.

Lemma EndBlock_swallows_reconciliation_error_witness :
  EndBlock (gasWantedCase None 0)
  = Ret (None, withLoggedError ErrBlockGasMeterNil (gasWantedCase None 0)).
Proof.
  apply (EndBlock_swallows_reconciliation_error
           (gasWantedCase None 0) DefaultBaseFee 0 ErrBlockGasMeterNil
           (withLoggedError ErrBlockGasMeterNil (gasWantedCase None 0))).
  - split; reflexivity.
  - reflexivity.
  - reflexivity.
Defined.

Lemma EndBlock_equilibrium_fixed_point_witness :
  exists ctx2,
    EndBlock (baseFeeCase false 1 50 highMinGasPrice) = Ret (None, ctx2) /\
    GetParams ctx2 = GetParams (baseFeeCase false 1 50 highMinGasPrice) /\
    blockGasWanted ctx2 = 50.
Proof.
  apply (EndBlock_equilibrium_fixed_point
           (baseFeeCase false 1 50 highMinGasPrice) DefaultBaseFee 50
           (blockGasRecorded 50 (baseFeeCase false 1 50 highMinGasPrice))).
  - split; reflexivity.
  - reflexivity.
  - reflexivity.
  - vm_compute. reflexivity.
  - reflexivity.
Defined.

Lemma EndBlock_keeps_fee_nonnegative_witness :
  exists ctx' fee,
    EndBlock (baseFeeCase false 1 25 0) = Ret (None, ctx') /\
    BaseFee (GetParams ctx') = Some fee /\
    0 <= fee.
Proof.
  apply (EndBlock_keeps_fee_nonnegative (baseFeeCase false 1 25 0)
                                        DefaultBaseFee).
  - apply ValidInput_baseFeeCase. discriminate.
  - reflexivity.
  - vm_compute. discriminate.
Defined.

Lemma EndBlock_disabled_witness :
  EndBlock (baseFeeCase true 0 0 0) = Ret (None, baseFeeCase true 0 0 0).
Proof.
  apply (EndBlock_disabled (baseFeeCase true 0 0 0)).
  left. reflexivity.
Defined.

Lemma EndBlock_frame_witness :
  GetTransientGasWanted
    (baseFeeStored (DefaultBaseFee + LegacyNewDec 109375000)
                   (blockGasRecorded 100 (baseFeeCase false 1 100 0)))
  = GetTransientGasWanted (baseFeeCase false 1 100 0).
Proof.
  apply (EndBlock_frame
           (baseFeeCase false 1 100 0) None
           (baseFeeStored (DefaultBaseFee + LegacyNewDec 109375000)
                          (blockGasRecorded 100 (baseFeeCase false 1 100 0)))).
  vm_compute. reflexivity.
Defined.

End FurtherInstances.
